(** * Shallow embedding of [src/bdi_agent_framework.py] (class [BDIAgent])

    The agent keeps three containers: a dict of beliefs, a list of desires
    and a list of intentions.  The reasoning service (an OpenAI client) and
    the parts of the Python runtime that are not code of this repository
    ([json.loads], [str], [float] on strings, [time.time]) are parameters
    of the development; everything [BDIAgent] does with them is written out. *)

From Stdlib Require Import String List ZArith QArith Bool Lia.
Import ListNotations.
Open Scope nat_scope.
Open Scope list_scope.
Set Warnings "-register-all".

(** ** Python values produced by [json.loads]

    Numbers keep Python's distinction between [int] and [float]; a float is
    finite (a rational), [inf], [-inf] or [nan].  [json.loads] creates every
    [NaN] of a document as the one shared constant object, so within the
    containers the comparisons below (which use the identity shortcut of
    CPython) see [NaN] equal to itself.  A [JObj] is a Python dict with
    string keys; [json.loads] never yields two equal keys in one dict. *)

Inductive pyfloat : Type :=
| PFin (q : Q)
| PInf
| PNegInf
| PNaN.

Inductive jvalue : Type :=
| JNull
| JBool (b : bool)
| JInt (z : Z)
| JFloat (f : pyfloat)
| JStr (s : string)
| JArr (l : list jvalue)
| JObj (m : list (string * jvalue)).

(** Python exceptions that the modelled code can raise. *)
Inductive exn : Type :=
| JSONDecodeError
| TypeError
| KeyError
| ValueError
| AttributeError
| ServiceError (msg : string)
| UserError (msg : string).

Inductive result (A : Type) : Type :=
| Ok (a : A)
| Err (e : exn).
Arguments Ok {A} a.
Arguments Err {A} e.

(** ** Python operations on those values *)

(** Numeric value of [bool], [int] and [float] (they compare across types). *)
Definition py_num (v : jvalue) : option pyfloat :=
  match v with
  | JBool b => Some (PFin (if b then 1 else 0))
  | JInt z => Some (PFin (inject_Z z))
  | JFloat f => Some f
  | _ => None
  end.

Definition pyfloat_eqb (x y : pyfloat) : bool :=
  match x, y with
  | PFin a, PFin b => Qeq_bool a b
  | PInf, PInf | PNegInf, PNegInf | PNaN, PNaN => true
  | _, _ => false
  end.

(** [x > y] on floats. *)
Definition pyfloat_gt (x y : pyfloat) : bool :=
  match x, y with
  | PFin a, PFin b => negb (Qle_bool a b)
  | PFin _, PNegInf => true
  | PInf, (PFin _ | PNegInf) => true
  | _, _ => false
  end.

(** Lookup in a JSON object (a dict with string keys). *)
Fixpoint jlookup (k : string) (m : list (string * jvalue)) : option jvalue :=
  match m with
  | [] => None
  | (k', v) :: m' => if String.eqb k' k then Some v else jlookup k m'
  end.

(** Python [==] on JSON values. *)
Fixpoint py_eq (a b : jvalue) {struct a} : bool :=
  match a with
  | JNull => match b with JNull => true | _ => false end
  | JStr s => match b with JStr t => String.eqb s t | _ => false end
  | JArr l =>
      match b with
      | JArr l' =>
          (fix go (l l' : list jvalue) : bool :=
             match l, l' with
             | [], [] => true
             | x :: r, y :: r' => py_eq x y && go r r'
             | _, _ => false
             end) l l'
      | _ => false
      end
  | JObj m =>
      match b with
      | JObj m' =>
          Nat.eqb (length m) (length m') &&
          (fix go (m : list (string * jvalue)) : bool :=
             match m with
             | [] => true
             | (k, v) :: r =>
                 match jlookup k m' with
                 | Some w => py_eq v w
                 | None => false
                 end && go r
             end) m
      | _ => false
      end
  | _ =>
      match py_num a, py_num b with
      | Some x, Some y => pyfloat_eqb x y
      | _, _ => false
      end
  end.

(** Truth value ([if x:]). *)
Definition py_truthy (v : jvalue) : bool :=
  match v with
  | JNull => false
  | JBool b => b
  | JInt z => negb (Z.eqb z 0)
  | JFloat (PFin q) => negb (Qeq_bool q 0)
  | JFloat _ => true
  | JStr s => negb (String.eqb s EmptyString)
  | JArr l => match l with [] => false | _ => true end
  | JObj m => match m with [] => false | _ => true end
  end.

(** Only [list] and [dict] are unhashable among JSON values. *)
Definition hashable (v : jvalue) : bool :=
  match v with
  | JArr _ | JObj _ => false
  | _ => true
  end.

(** [v[k]] with a string subscript: a dict looks the key up, every other
    JSON value refuses a string index. *)
Definition py_getitem (v : jvalue) (k : string) : result jvalue :=
  match v with
  | JObj m => match jlookup k m with Some x => Ok x | None => Err KeyError end
  | _ => Err TypeError
  end.

(** [v.get(k, default)]: only dicts have [.get]. *)
Definition py_get (v : jvalue) (k : string) (default : jvalue) : result jvalue :=
  match v with
  | JObj m => match jlookup k m with Some x => Ok x | None => Ok default end
  | _ => Err AttributeError
  end.

(** [for x in v:]: a list yields its items, a dict its keys, a string its
    one-character strings; numbers, booleans and [None] are not iterable. *)
Fixpoint string_chars (s : string) : list jvalue :=
  match s with
  | EmptyString => []
  | String c s' => JStr (String c EmptyString) :: string_chars s'
  end.

Definition py_iter (v : jvalue) : result (list jvalue) :=
  match v with
  | JArr l => Ok l
  | JObj m => Ok (map (fun kv => JStr (fst kv)) m)
  | JStr s => Ok (string_chars s)
  | _ => Err TypeError
  end.

(** ** State records *)

Definition DEFAULT_CONFIDENCE : jvalue := JFloat (PFin 1).
Definition DEFAULT_PRIORITY : Z := 1.

Record Belief : Type := mkBelief {
  key : jvalue;
  value : jvalue;
  confidence : jvalue
}.

Record Desire : Type := mkDesire {
  goal : string;
  priority : Z;
  context : list (string * jvalue)
}.

Record Intention : Type := mkIntention {
  action : jvalue;
  parameters : jvalue;
  deadline : jvalue
}.

(** A dataclass [==] compares the tuples of the fields. *)
Definition intention_eqb (i j : Intention) : bool :=
  py_eq (action i) (action j) && py_eq (parameters i) (parameters j)
  && py_eq (deadline i) (deadline j).

(** Python objects in the intentions list carry their identity: the list
    copy [self.intentions[:]] shares the objects with the live list. *)
Definition obj : Type := (nat * Intention)%type.

(** ** The beliefs dict

    An insertion-ordered association list; a key is found by [==] against
    the stored keys, and an update of a present key keeps its slot (and the
    stored key object). *)
Definition belief_dict : Type := list (jvalue * Belief).

Fixpoint dict_lookup (k : jvalue) (d : belief_dict) : option Belief :=
  match d with
  | [] => None
  | (k', b) :: d' => if py_eq k' k then Some b else dict_lookup k d'
  end.

Fixpoint dict_assign (k : jvalue) (b : Belief) (d : belief_dict) : belief_dict :=
  match d with
  | [] => [(k, b)]
  | (k', b') :: d' =>
      if py_eq k' k then (k', b) :: d' else (k', b') :: dict_assign k b d'
  end.

(** [d[k] = b] *)
Definition dict_setitem (k : jvalue) (b : Belief) (d : belief_dict)
  : result belief_dict :=
  if hashable k then Ok (dict_assign k b d) else Err TypeError.

(** ** Agent state and the state/exception monad *)

Record agent : Type := mkAgent {
  beliefs : belief_dict;
  desires : list Desire;
  intentions : list obj;
  next_oid : nat  (* identity given to the next Intention object *)
}.

Definition set_beliefs (d : belief_dict) (st : agent) : agent :=
  mkAgent d (desires st) (intentions st) (next_oid st).
Definition set_desires (l : list Desire) (st : agent) : agent :=
  mkAgent (beliefs st) l (intentions st) (next_oid st).
Definition set_intentions (l : list obj) (st : agent) : agent :=
  mkAgent (beliefs st) (desires st) l (next_oid st).
Definition set_next_oid (n : nat) (st : agent) : agent :=
  mkAgent (beliefs st) (desires st) (intentions st) n.

Definition M (A : Type) : Type := agent -> result A * agent.

Definition ret {A} (a : A) : M A := fun st => (Ok a, st).
Definition raise {A} (e : exn) : M A := fun st => (Err e, st).
Definition bind {A B} (m : M A) (k : A -> M B) : M B :=
  fun st => match m st with
            | (Ok a, st') => k a st'
            | (Err e, st') => (Err e, st')
            end.
Definition lift {A} (r : result A) : M A :=
  fun st => (r, st).

Notation "x <- m ;; k" := (bind m (fun x => k))
  (at level 61, m at next level, right associativity).
Notation "m ;;; k" := (bind m (fun _ => k))
  (at level 61, right associativity).

(** ** [add_belief] and [add_desire] *)

Definition add_belief (k v c : jvalue) : M unit :=
  fun st =>
    match dict_setitem k (mkBelief k v c) (beliefs st) with
    | Ok d => (Ok tt, set_beliefs d st)
    | Err e => (Err e, st)
    end.

(** [context or {}]: a missing ([None]) or empty context becomes a fresh
    empty dict. *)
Definition add_desire (g : string) (p : Z) (ctx : option (list (string * jvalue)))
  : M unit :=
  fun st =>
    let c := match ctx with
             | Some ((_ :: _) as m) => m
             | _ => []
             end in
    (Ok tt, set_desires (desires st ++ [mkDesire g p c]) st).

(** ** The reasoning cycle, the executor and the orchestrator *)

Section Agent.

(** [json.loads] on a string: [None] when it raises [JSONDecodeError]. *)
Variable json_loads : string -> option jvalue.
(** [str(v)], used by f-string formatting. *)
Variable py_str : jvalue -> string.
(** [float(s)] on a string: [None] when it raises [ValueError]. *)
Variable py_float_of_str : string -> option pyfloat.

(** What [self.llm.chat.completions.create(...)] gives [reason]: either the
    call raises, or it returns [response.choices[0].message.content], which
    the client types as an optional string. *)
Inductive llm_reply : Type :=
| LlmRaises (e : exn)
| LlmContent (content : option string).

(** [_update_beliefs]: the loop body applies one entry, failing fast. *)
Fixpoint update_beliefs_list (l : list jvalue) : M unit :=
  match l with
  | [] => ret tt
  | belief_update :: rest =>
      k <- lift (py_getitem belief_update "key") ;;
      v <- lift (py_getitem belief_update "value") ;;
      c <- lift (py_get belief_update "confidence" DEFAULT_CONFIDENCE) ;;
      add_belief k v c ;;;
      update_beliefs_list rest
  end.

Definition update_beliefs (belief_updates : jvalue) : M unit :=
  xs <- lift (py_iter belief_updates) ;;
  update_beliefs_list xs.

(** [Intention(...)] allocates a new object. *)
Definition new_intention (i : Intention) : M obj :=
  fun st => (Ok (next_oid st, i), set_next_oid (S (next_oid st)) st).

(** [_create_intentions] *)
Fixpoint create_intentions_list (l : list jvalue) : M (list obj) :=
  match l with
  | [] => ret []
  | intention_data :: rest =>
      a <- lift (py_getitem intention_data "action") ;;
      p <- lift (py_get intention_data "parameters" (JObj [])) ;;
      d <- lift (py_get intention_data "deadline" JNull) ;;
      o <- new_intention (mkIntention a p d) ;;
      os <- create_intentions_list rest ;;
      ret (o :: os)
  end.

Definition create_intentions (intention_data_list : jvalue) : M (list obj) :=
  xs <- lift (py_iter intention_data_list) ;;
  create_intentions_list xs.

Definition assign_intentions (l : list obj) : M unit :=
  fun st => (Ok tt, set_intentions l st).

(** The body of the [try] block of [reason].  Building the prompt is left
    out: it only reads the state and renders JSON-derived values, which
    cannot fail.  Success means [return self.intentions]. *)
Definition reason_body (r : llm_reply) : M unit :=
  content <- (match r with
              | LlmRaises e => raise e
              | LlmContent c => ret c
              end) ;;
  (* json.loads(None) raises TypeError *)
  s <- lift (match content with Some s => Ok s | None => Err TypeError end) ;;
  res <- lift (match json_loads s with
               | Some v => Ok v
               | None => Err JSONDecodeError
               end) ;;
  bus <- lift (py_get res "belief_updates" (JArr [])) ;;
  update_beliefs bus ;;;
  nis <- lift (py_get res "new_intentions" (JArr [])) ;;
  new_intentions <- create_intentions nis ;;
  assign_intentions new_intentions ;;;
  (* _log_reasoning only prints *)
  _ <- lift (py_get res "reasoning" (JStr "No explanation provided")) ;;
  ret tt.

(** [reason]: both [except] clauses print and return a fresh empty list;
    state changes made before the exception stay. *)
Definition reason (st : agent) (r : llm_reply) : list obj * agent :=
  match reason_body r st with
  | (Ok _, st') => (intentions st', st')
  | (Err _, st') => ([], st')
  end.

(** The default [execute_action]. *)
Definition execute_action (a p : jvalue) : result string :=
  Ok ("Action '" ++ py_str a ++ "' with params " ++ py_str p ++ " completed")%string.

(** [self.intentions.remove(x)]: CPython compares each item with [x] by
    identity first, then with [==]; [ValueError] when none matches. *)
Fixpoint remove_first (x : obj) (l : list obj) : option (list obj) :=
  match l with
  | [] => None
  | y :: l' =>
      if Nat.eqb (fst y) (fst x) || intention_eqb (snd y) (snd x) then Some l'
      else match remove_first x l' with
           | Some r => Some (y :: r)
           | None => None
           end
  end.

Definition intentions_remove (x : obj) : M unit :=
  fun st => match remove_first x (intentions st) with
            | Some l => (Ok tt, set_intentions l st)
            | None => (Err ValueError, st)
            end.

(** [current_time > deadline] with [current_time] a float from
    [time.time()]; comparing a float with a string, list, dict or [None]
    raises [TypeError]. *)
Definition py_gt_time (current_time : Q) (d : jvalue) : result bool :=
  match py_num d with
  | Some f => Ok (pyfloat_gt (PFin current_time) f)
  | None => Err TypeError
  end.

(** The [try] block of the deadline check: [Some msg] is the [continue]
    after an expiry, [None] falls through to the execution. *)
Definition deadline_try (current_time : Q) (o : obj) : M (option string) :=
  let i := snd o in
  dl <- lift (match deadline i with
              | JStr s => match py_float_of_str s with
                          | Some f => Ok (JFloat f)
                          | None => Err ValueError
                          end
              | d => Ok d
              end) ;;
  expired <- lift (py_gt_time current_time dl) ;;
  if expired then
    intentions_remove o ;;;
    ret (Some ("EXPIRED: " ++ py_str (action i))%string)
  else ret None.

(** [except (ValueError, TypeError): pass] *)
Definition catch_value_type (m : M (option string)) : M (option string) :=
  fun st => match m st with
            | (Err ValueError, st') | (Err TypeError, st') => (Ok None, st')
            | x => x
            end.

Section Executor.

(** The action capability: the default [execute_action] or an override. *)
Variable act : jvalue -> jvalue -> result string.
Variable current_time : Q.

(** The [for] loop over the snapshot; [results] is the local list. *)
Fixpoint exec_loop (snapshot : list obj) (results : list string) : M (list string) :=
  match snapshot with
  | [] => ret results
  | o :: rest =>
      let i := snd o in
      expiry <- (if py_truthy (deadline i)
                 then catch_value_type (deadline_try current_time o)
                 else ret None) ;;
      match expiry with
      | Some msg => exec_loop rest (results ++ [msg])
      | None =>
          r <- lift (act (action i) (parameters i)) ;;
          let results' := results ++ [("EXECUTED: " ++ py_str (action i) ++ " -> " ++ r)%string] in
          intentions_remove o ;;;
          exec_loop rest results'
      end
  end.

Definition execute_intentions : M (list string) :=
  fun st => exec_loop (intentions st) [] st.

End Executor.

Record cycle_result : Type := mkCycleResult {
  intentions_formed : nat;
  actions_executed : list string;
  current_beliefs : list jvalue;
  active_desires : nat
}.

(** [cycle]: on success [reason] returns the list object [self.intentions]
    itself, which [execute_intentions] then empties in place, so
    [len(intentions)] is read from the live list. *)
Definition cycle (act : jvalue -> jvalue -> result string) (current_time : Q)
  (r : llm_reply) (st : agent) : result cycle_result * agent :=
  let '(ok, st1) := reason_body r st in
  match execute_intentions act current_time st1 with
  | (Err e, st2) => (Err e, st2)
  | (Ok results, st2) =>
      let formed := match ok with
                    | Ok _ => length (intentions st2)
                    | Err _ => O
                    end in
      (Ok (mkCycleResult formed results (map fst (beliefs st2))
             (length (desires st2))), st2)
  end.

End Agent.

(** ** Sequences of public calls on one agent *)

Section Runs.

Variable json_loads : string -> option jvalue.
Variable py_str : jvalue -> string.
Variable py_float_of_str : string -> option pyfloat.

Inductive op : Type :=
| OpAddBelief (k v c : jvalue)
| OpAddDesire (g : string) (p : Z) (ctx : option (list (string * jvalue)))
| OpReason (r : llm_reply)
| OpExecute (act : jvalue -> jvalue -> result string) (current_time : Q)
| OpCycle (act : jvalue -> jvalue -> result string) (current_time : Q) (r : llm_reply).

(** The state after a call, whether it returned or raised. *)
Definition step (st : agent) (o : op) : agent :=
  match o with
  | OpAddBelief k v c => snd (add_belief k v c st)
  | OpAddDesire g p ctx => snd (add_desire g p ctx st)
  | OpReason r => snd (reason json_loads st r)
  | OpExecute act t => snd (execute_intentions py_str py_float_of_str act t st)
  | OpCycle act t r => snd (cycle json_loads py_str py_float_of_str act t r st)
  end.

Fixpoint run (st : agent) (ops : list op) : agent :=
  match ops with
  | [] => st
  | o :: ops' => run (step st o) ops'
  end.

End Runs.

(** ** The command loop of [interactive_session]

    Text is ASCII: [str.strip] and [str.split] treat as whitespace the
    characters that CPython's [str.isspace] accepts in that range
    (tab to carriage return, the four separators 0x1c-0x1f, space). *)

Definition py_isspace (c : Ascii.ascii) : bool :=
  let n := Ascii.nat_of_ascii c in
  ((9 <=? n) && (n <=? 13)) || ((28 <=? n) && (n <=? 32)).

Fixpoint drop_ws (l : list Ascii.ascii) : list Ascii.ascii :=
  match l with
  | c :: r => if py_isspace c then drop_ws r else l
  | [] => []
  end.

(** [s.strip()] *)
Definition py_strip (s : string) : string :=
  string_of_list_ascii (rev (drop_ws (rev (drop_ws (list_ascii_of_string s))))).

Definition ascii_lower (c : Ascii.ascii) : Ascii.ascii :=
  let n := Ascii.nat_of_ascii c in
  if (65 <=? n) && (n <=? 90) then Ascii.ascii_of_nat (n + 32) else c.

(** [s.lower()] *)
Definition py_lower (s : string) : string :=
  string_of_list_ascii (map ascii_lower (list_ascii_of_string s)).

(** [s.startswith(p)] *)
Definition py_startswith (s p : string) : bool := String.prefix p s.

Fixpoint take_word (l : list Ascii.ascii) : list Ascii.ascii * list Ascii.ascii :=
  match l with
  | [] => ([], [])
  | c :: r =>
      if py_isspace c then ([], l)
      else let '(w, rest) := take_word r in (c :: w, rest)
  end.

(** [s.split(maxsplit=n)] (CPython's [split_whitespace]): at most [n]
    words, then whatever follows the next whitespace run, as one part. *)
Fixpoint split_ws (maxsplit : nat) (l : list Ascii.ascii) : list (list Ascii.ascii) :=
  match drop_ws l with
  | [] => []
  | l' =>
      match maxsplit with
      | O => [l']
      | S m => let '(w, rest) := take_word l' in w :: split_ws m rest
      end
  end.

Definition py_split (s : string) (maxsplit : nat) : list string :=
  map string_of_list_ascii (split_ws maxsplit (list_ascii_of_string s)).

Inductive session_event : Type :=
| SessionQuit
| SessionContinue
| SessionCycle (r : result cycle_result).

Section Session.

Variable json_loads : string -> option jvalue.
Variable py_str : jvalue -> string.
Variable py_float_of_str : string -> option pyfloat.
(** [int(s)] on a string: [None] when it raises [ValueError]. *)
Variable py_int_of_str : string -> option Z.
Variable act : jvalue -> jvalue -> result string.

(** One pass of the [while True] loop on the line [raw] read by [input];
    free text goes through [agent.cycle] at time [current_time] with the
    service reply [reply], and [except Exception] reports any error and
    keeps the loop going. *)
Definition session_step (current_time : Q) (reply : llm_reply) (raw : string)
  (st : agent) : session_event * agent :=
  let user_input := py_strip raw in
  let lowered := py_lower user_input in
  if String.eqb lowered "quit" || String.eqb lowered "exit" then (SessionQuit, st)
  else if String.eqb lowered "show state" then (SessionContinue, st)
  else if py_startswith lowered "add belief" then
    match py_split user_input 3 with
    | _ :: _ :: k :: v :: more =>
        let confidence :=
          match more with
          | c :: _ => match py_float_of_str c with
                      | Some f => JFloat f
                      | None => JFloat (PFin 1)
                      end
          | [] => JFloat (PFin 1)
          end in
        (SessionContinue, snd (add_belief (JStr k) (JStr v) confidence st))
    | _ => (SessionContinue, st)
    end
  else if py_startswith lowered "add desire" then
    match py_split user_input 3 with
    | _ :: _ :: g :: more =>
        let p := match more with
                 | p :: _ => match py_int_of_str p with Some z => z | None => 1%Z end
                 | [] => 1%Z
                 end in
        (SessionContinue, snd (add_desire g p None st))
    | _ => (SessionContinue, st)
    end
  else if String.eqb user_input EmptyString then (SessionContinue, st)
  else
    (* the line only reaches the prompt, whose answer is [reply] *)
    let '(r, st') := cycle json_loads py_str py_float_of_str act current_time reply st in
    (SessionCycle r, st').

End Session.

(** ** Reference descriptions taken from the spec *)

(** The desires that the [addDesire] calls of a run describe, in call
    order, with a missing context read as the empty mapping. *)
Definition desire_calls (ops : list op) : list Desire :=
  flat_map (fun o => match o with
                     | OpAddDesire g p ctx =>
                         [mkDesire g p (match ctx with Some c => c | None => [] end)]
                     | _ => []
                     end) ops.

(** A sequence of [addBelief(k, v, c)] calls with string identifiers. *)
Fixpoint add_beliefs (calls : list (string * jvalue * jvalue)) : M unit :=
  match calls with
  | [] => ret tt
  | (k, v, c) :: rest => add_belief (JStr k) v c ;;; add_beliefs rest
  end.

(** Value and confidence of the most recent call for [k], if any. *)
Fixpoint last_call (k : string) (calls : list (string * jvalue * jvalue))
  : option (jvalue * jvalue) :=
  match calls with
  | [] => None
  | (k', v, c) :: rest =>
      match last_call k rest with
      | Some r => Some r
      | None => if String.eqb k' k then Some (v, c) else None
      end
  end.

(** No two stored keys of a dict are [==]. *)
Fixpoint dict_wf (d : belief_dict) : bool :=
  match d with
  | [] => true
  | (k, _) :: d' =>
      forallb (fun p => negb (py_eq k (fst p)) && negb (py_eq (fst p) k)) d'
      && dict_wf d'
  end.

(** Number of stored entries whose key is [==] to [k]. *)
Definition key_count (k : jvalue) (d : belief_dict) : nat :=
  length (filter (fun p => py_eq (fst p) k) d).

(** The reply of the spec's worked example, as [json.loads] returns it. *)
Definition reply_C1 : jvalue :=
  JObj [("belief_updates", JArr [JObj [("key", JStr "mood"); ("value", JStr "calm");
                                      ("confidence", JFloat (PFin (6 # 10)))]]);
        ("new_intentions", JArr [JObj [("action", JStr "rest")]]);
        ("reasoning", JStr "ok")]%string.

(** A belief update that [_update_beliefs] applies: an object with a
    hashable ["key"] and a ["value"]. *)
Definition belief_entry_ok (e : jvalue) : bool :=
  match e with
  | JObj f =>
      match jlookup "key" f, jlookup "value" f with
      | Some k, Some _ => hashable k
      | _, _ => false
      end
  | _ => false
  end.

(** An agent that still holds an intention from an earlier cycle. *)
Definition stale_agent : agent :=
  mkAgent [] [] [(0, mkIntention (JStr "rest") (JObj []) JNull)] 1.

(** Whether the executor reports an intention with deadline [d] as
    expired at time [t]: the deadline is truthy, and after [float()] of a
    string it is a number that [t] exceeds. *)
Definition deadline_expired (pf : string -> option pyfloat) (t : Q) (d : jvalue) : bool :=
  py_truthy d &&
  match match d with
        | JStr s => option_map JFloat (pf s)
        | _ => Some d
        end with
  | Some dl => match py_num dl with
               | Some f => pyfloat_gt (PFin t) f
               | None => false
               end
  | None => false
  end.

(** The line the executor reports for one intention, when the action
    capability answers [g a p]. *)
Definition exec_report (ps : jvalue -> string) (pf : string -> option pyfloat)
  (g : jvalue -> jvalue -> string) (t : Q) (i : Intention) : string :=
  if deadline_expired pf t (deadline i)
  then ("EXPIRED: " ++ ps (action i))%string
  else ("EXECUTED: " ++ ps (action i) ++ " -> " ++ g (action i) (parameters i))%string.

(** A [new_intentions] entry that [_create_intentions] accepts: an object
    with an ["action"] field. *)
Definition intention_entry_ok (e : jvalue) : bool :=
  match e with
  | JObj f => match jlookup "action" f with Some _ => true | None => false end
  | _ => false
  end.

(** The Intention an accepted entry describes: missing [parameters] read
    as [{}], missing [deadline] as [None]. *)
Definition entry_intention (e : jvalue) : Intention :=
  match e with
  | JObj f =>
      mkIntention (match jlookup "action" f with Some a => a | None => JNull end)
                  (match jlookup "parameters" f with Some p => p | None => JObj [] end)
                  (match jlookup "deadline" f with Some d => d | None => JNull end)
  | _ => mkIntention JNull (JObj []) JNull
  end.

(** The Belief an accepted belief update describes: the ["confidence"]
    field as given, [1.0] only when it is absent. *)
Definition entry_belief (e : jvalue) : Belief :=
  match e with
  | JObj f =>
      mkBelief (match jlookup "key" f with Some k => k | None => JNull end)
               (match jlookup "value" f with Some v => v | None => JNull end)
               (match jlookup "confidence" f with Some c => c | None => DEFAULT_CONFIDENCE end)
  | _ => mkBelief JNull JNull DEFAULT_CONFIDENCE
  end.

(** The beliefs dict after storing the updates [l] one after the other. *)
Definition apply_entries (d : belief_dict) (l : list jvalue) : belief_dict :=
  fold_left (fun d e => dict_assign (key (entry_belief e)) (entry_belief e) d) l d.

(** ** Frame lemmas: which part of the state an operation can change *)

(** [keeps f m]: running [m] never changes the part [f] of the state,
    whether [m] returns or raises. *)
Definition keeps {A T} (f : agent -> T) (m : M A) : Prop :=
  forall st, f (snd (m st)) = f st.

Lemma keeps_ret {A T} (f : agent -> T) (a : A) : keeps f (ret a).
Proof. intro st; reflexivity. Qed.

Lemma keeps_raise {A T} (f : agent -> T) (e : exn) : keeps f (@raise A e).
Proof. intro st; reflexivity. Qed.

Lemma keeps_lift {A T} (f : agent -> T) (r : result A) : keeps f (lift r).
Proof. intro st; reflexivity. Qed.

Lemma keeps_bind {A B T} (f : agent -> T) (m : M A) (k : A -> M B) :
  keeps f m -> (forall a, keeps f (k a)) -> keeps f (bind m k).
Proof.
  intros Hm Hk st; unfold bind.
  destruct (m st) as [[a|e] st'] eqn:E; simpl.
  - rewrite Hk. specialize (Hm st); rewrite E in Hm; exact Hm.
  - specialize (Hm st); rewrite E in Hm; exact Hm.
Qed.

Lemma keeps_catch {T} (f : agent -> T) m : keeps f m -> keeps f (catch_value_type m).
Proof.
  intros H st; unfold catch_value_type.
  specialize (H st).
  destruct (m st) as [[a|[]] st']; exact H.
Qed.

Lemma add_belief_desires k v c : keeps desires (add_belief k v c).
Proof.
  intro st; unfold add_belief.
  destruct (dict_setitem _ _ _); reflexivity.
Qed.

Lemma add_belief_intentions k v c : keeps intentions (add_belief k v c).
Proof.
  intro st; unfold add_belief.
  destruct (dict_setitem _ _ _); reflexivity.
Qed.

Lemma new_intention_desires i : keeps desires (new_intention i).
Proof. intro st; reflexivity. Qed.

Lemma new_intention_intentions i : keeps intentions (new_intention i).
Proof. intro st; reflexivity. Qed.

Lemma assign_intentions_desires l : keeps desires (assign_intentions l).
Proof. intro st; reflexivity. Qed.

Lemma intentions_remove_desires o : keeps desires (intentions_remove o).
Proof.
  intro st; unfold intentions_remove.
  destruct (remove_first _ _); reflexivity.
Qed.

Create HintDb frame.
#[local] Hint Resolve keeps_ret keeps_raise keeps_lift keeps_catch
  add_belief_desires add_belief_intentions new_intention_desires
  new_intention_intentions assign_intentions_desires
  intentions_remove_desires : frame.

Ltac keeps_step :=
  first
    [ progress (auto with frame)
    | apply keeps_bind; [ | intro ]
    | match goal with
      | |- keeps _ (match ?x with _ => _ end) => destruct x
      | |- keeps _ (if ?x then _ else _) => destruct x
      end ].

Ltac keeps := repeat keeps_step.

Lemma update_beliefs_list_desires l : keeps desires (update_beliefs_list l).
Proof. induction l as [|x l IH]; simpl; keeps. Qed.

Lemma update_beliefs_desires x : keeps desires (update_beliefs x).
Proof. unfold update_beliefs; keeps; apply update_beliefs_list_desires. Qed.

Lemma create_intentions_list_desires l : keeps desires (create_intentions_list l).
Proof. induction l as [|x l IH]; simpl; keeps. Qed.

Lemma create_intentions_desires x : keeps desires (create_intentions x).
Proof. unfold create_intentions; keeps; apply create_intentions_list_desires. Qed.

Lemma update_beliefs_list_intentions l : keeps intentions (update_beliefs_list l).
Proof. induction l as [|x l IH]; simpl; keeps. Qed.

Lemma update_beliefs_intentions x : keeps intentions (update_beliefs x).
Proof. unfold update_beliefs; keeps; apply update_beliefs_list_intentions. Qed.

Lemma create_intentions_list_intentions l : keeps intentions (create_intentions_list l).
Proof. induction l as [|x l IH]; simpl; keeps. Qed.

Lemma create_intentions_intentions x : keeps intentions (create_intentions x).
Proof. unfold create_intentions; keeps; apply create_intentions_list_intentions. Qed.

#[local] Hint Resolve update_beliefs_desires create_intentions_desires
  update_beliefs_intentions create_intentions_intentions : frame.

Lemma reason_body_desires jl r : keeps desires (reason_body jl r).
Proof. unfold reason_body; keeps. Qed.

Lemma deadline_try_desires ps pf t o : keeps desires (deadline_try ps pf t o).
Proof. unfold deadline_try; keeps. Qed.

#[local] Hint Resolve deadline_try_desires : frame.

Lemma exec_loop_desires ps pf act t l res :
  keeps desires (exec_loop ps pf act t l res).
Proof.
  revert res; induction l as [|o l IH]; intro res; simpl; keeps; auto.
Qed.

Lemma reason_keeps_desires jl st r : desires (snd (reason jl st r)) = desires st.
Proof.
  unfold reason. pose proof (reason_body_desires jl r st) as H.
  destruct (reason_body jl r st) as [[]]; exact H.
Qed.

Lemma execute_keeps_desires ps pf act t st :
  desires (snd (execute_intentions ps pf act t st)) = desires st.
Proof. apply exec_loop_desires. Qed.

Lemma cycle_keeps_desires jl ps pf act t r st :
  desires (snd (cycle jl ps pf act t r st)) = desires st.
Proof.
  unfold cycle.
  pose proof (reason_body_desires jl r st) as H1.
  destruct (reason_body jl r st) as [ok st1].
  pose proof (execute_keeps_desires ps pf act t st1) as H2.
  destruct (execute_intentions ps pf act t st1) as [[res|e] st2];
    simpl in *; congruence.
Qed.

Lemma step_desires jl ps pf st o :
  desires (step jl ps pf st o) = desires st ++ desire_calls [o].
Proof.
  destruct o as [k v c|g p ctx|r|act t|act t r]; simpl.
  - rewrite add_belief_desires, app_nil_r; reflexivity.
  - do 3 f_equal; destruct ctx as [[|x m]|]; reflexivity.
  - rewrite reason_keeps_desires, app_nil_r; reflexivity.
  - rewrite execute_keeps_desires, app_nil_r; reflexivity.
  - rewrite cycle_keeps_desires, app_nil_r; reflexivity.
Qed.

(** C9: [addDesire] appends exactly its call's desire, in call order, and
    no operation of the agent (adding beliefs, reasoning, executing, a full
    cycle, whatever the reply or the action capability) removes a desire:
    after any run the desires list is the initial list followed by the
    desires of the [addDesire] calls. *)
Theorem add_desire_strictly_additive jl ps pf (ops : list op) (st : agent) :
  desires (run jl ps pf st ops) = desires st ++ desire_calls ops.
Proof.
  revert st; induction ops as [|o ops IH]; intro st; simpl.
  - rewrite app_nil_r; reflexivity.
  - rewrite IH, step_desires, <- app_assoc; simpl; rewrite app_nil_r; reflexivity.
Qed.

(** ** The beliefs dict under string keys *)

Lemma py_eq_str_l s x : py_eq (JStr s) x = true <-> x = JStr s.
Proof.
  destruct x; simpl; split; intro H; try discriminate.
  - apply String.eqb_eq in H; subst; reflexivity.
  - injection H as ->; apply String.eqb_refl.
Qed.

Lemma py_eq_str_r s x : py_eq x (JStr s) = true <-> x = JStr s.
Proof.
  destruct x; simpl; split; intro H; try discriminate.
  - apply String.eqb_eq in H; subst; reflexivity.
  - injection H as ->; apply String.eqb_refl.
Qed.

Lemma py_eq_str_r_false s x : py_eq x (JStr s) = false <-> x <> JStr s.
Proof.
  rewrite <- py_eq_str_r; destruct (py_eq x (JStr s)); intuition congruence.
Qed.

Lemma py_eq_str_l_false s x : py_eq (JStr s) x = false <-> x <> JStr s.
Proof.
  rewrite <- py_eq_str_l; destruct (py_eq (JStr s) x); intuition congruence.
Qed.

Lemma lookup_assign_same s b d :
  dict_lookup (JStr s) (dict_assign (JStr s) b d) = Some b.
Proof.
  induction d as [|[k' b'] d IH]; simpl.
  - rewrite String.eqb_refl; reflexivity.
  - destruct (py_eq k' (JStr s)) eqn:E; simpl; rewrite E; auto.
Qed.

Lemma lookup_assign_other s s' b d :
  s <> s' ->
  dict_lookup (JStr s') (dict_assign (JStr s) b d) = dict_lookup (JStr s') d.
Proof.
  intro Hne; induction d as [|[k' b'] d IH]; simpl.
  - apply String.eqb_neq in Hne; rewrite Hne; reflexivity.
  - destruct (py_eq k' (JStr s)) eqn:E; simpl.
    + apply py_eq_str_r in E; subst k'.
      apply String.eqb_neq in Hne; simpl; rewrite Hne; reflexivity.
    + rewrite IH; reflexivity.
Qed.

Lemma in_assign_keys k b d x :
  In x (map fst (dict_assign k b d)) -> In x (map fst d) \/ x = k.
Proof.
  induction d as [|[k' b'] d IH]; simpl.
  - intros [<-|[]]; right; reflexivity.
  - destruct (py_eq k' k); simpl; intros [<-|H]; auto.
    destruct (IH H); auto.
Qed.

Lemma wf_assign s b d :
  dict_wf d = true -> dict_wf (dict_assign (JStr s) b d) = true.
Proof.
  induction d as [|[k' b'] d IH]; simpl; intro Hwf.
  - reflexivity.
  - apply andb_true_iff in Hwf as [Hall Hwf].
    destruct (py_eq k' (JStr s)) eqn:E; simpl.
    + rewrite Hall, Hwf; reflexivity.
    + rewrite (IH Hwf), andb_true_r.
      apply forallb_forall; intros [x bx] Hin; simpl.
      destruct (in_assign_keys _ _ _ x (in_map fst _ _ Hin)) as [Hold | ->].
      * apply in_map_iff in Hold as [[x' bx'] [Hx Hin']]; simpl in Hx; subst x'.
        rewrite forallb_forall in Hall; exact (Hall _ Hin').
      * assert (E' : py_eq (JStr s) k' = false).
        { apply py_eq_str_l_false; apply py_eq_str_r_false in E; exact E. }
        rewrite E, E'; reflexivity.
Qed.

Lemma filter_all_false {A} (f : A -> bool) l :
  (forall x, In x l -> f x = false) -> filter f l = [].
Proof.
  induction l as [|x l IH]; simpl; intro H; [reflexivity|].
  rewrite (H x (or_introl eq_refl)); apply IH; auto.
Qed.

Lemma key_count_le s d : dict_wf d = true -> key_count (JStr s) d <= 1.
Proof.
  unfold key_count.
  induction d as [|[k' b'] d IH]; simpl; intro Hwf; [lia|].
  apply andb_true_iff in Hwf as [Hall Hwf].
  destruct (py_eq k' (JStr s)) eqn:E; simpl; [|exact (IH Hwf)].
  apply py_eq_str_r in E; subst k'.
  rewrite filter_all_false; [simpl; lia|].
  intros [x bx] Hin; simpl.
  rewrite forallb_forall in Hall.
  specialize (Hall _ Hin); simpl in Hall.
  apply andb_true_iff in Hall as [Hx _]; apply negb_true_iff in Hx.
  apply py_eq_str_l_false in Hx; apply py_eq_str_r_false; exact Hx.
Qed.

Lemma key_count_ge s d b : dict_lookup (JStr s) d = Some b -> 1 <= key_count (JStr s) d.
Proof.
  unfold key_count.
  induction d as [|[k' b'] d IH]; simpl; [discriminate|].
  destruct (py_eq k' (JStr s)); simpl; [lia|exact IH].
Qed.

Lemma add_belief_str s v c st :
  add_belief (JStr s) v c st =
  (Ok tt, set_beliefs (dict_assign (JStr s) (mkBelief (JStr s) v c) (beliefs st)) st).
Proof. reflexivity. Qed.

Lemma add_beliefs_spec calls : forall st,
  fst (add_beliefs calls st) = Ok tt /\
  (dict_wf (beliefs st) = true -> dict_wf (beliefs (snd (add_beliefs calls st))) = true) /\
  (forall k, dict_lookup (JStr k) (beliefs (snd (add_beliefs calls st))) =
             match last_call k calls with
             | Some (v, c) => Some (mkBelief (JStr k) v c)
             | None => dict_lookup (JStr k) (beliefs st)
             end).
Proof.
  induction calls as [|[[s v] c] calls IH]; intro st; simpl.
  - repeat split; auto.
  - unfold bind at 1; rewrite add_belief_str.
    destruct (IH (set_beliefs (dict_assign (JStr s) (mkBelief (JStr s) v c) (beliefs st)) st))
      as (Hok & Hwf & Hlk).
    repeat split.
    + exact Hok.
    + intro Hw; apply Hwf; simpl; apply wf_assign; exact Hw.
    + intro k; rewrite Hlk.
      destruct (last_call k calls) as [[v' c']|]; [reflexivity|]; simpl.
      destruct (String.eqb s k) eqn:E.
      * apply String.eqb_eq in E; subst k; apply lookup_assign_same.
      * apply String.eqb_neq in E; apply lookup_assign_other; exact E.
Qed.

Lemma last_call_in k v c calls : In (k, v, c) calls -> exists r, last_call k calls = Some r.
Proof.
  induction calls as [|[[k' v'] c'] calls IH]; simpl; [intros []|].
  intros [H|H].
  - injection H as -> -> ->.
    destruct (last_call k calls); eauto.
    rewrite String.eqb_refl; eauto.
  - destruct (IH H) as [r ->]; eauto.
Qed.

(** C5: from any agent state (its beliefs a Python dict, so no two stored
    keys are equal), a sequence of [addBelief(k, v, c)] calls with string
    identifiers never raises, keeps the keys pairwise distinct, leaves
    exactly one entry for every identifier it used, and that entry is the
    Belief built from the most recent call for that identifier. *)
Theorem add_belief_one_per_key (calls : list (string * jvalue * jvalue)) (st : agent)
  (Hwf : dict_wf (beliefs st) = true) :
  let st' := snd (add_beliefs calls st) in
  fst (add_beliefs calls st) = Ok tt /\
  dict_wf (beliefs st') = true /\
  (forall k v c, In (k, v, c) calls -> key_count (JStr k) (beliefs st') = 1) /\
  (forall k v c, last_call k calls = Some (v, c) ->
     dict_lookup (JStr k) (beliefs st') = Some (mkBelief (JStr k) v c)).
Proof.
  destruct (add_beliefs_spec calls st) as (Hok & Hw & Hlk).
  specialize (Hw Hwf).
  intro st'; repeat split; auto.
  - intros k v c Hin.
    destruct (last_call_in _ _ _ _ Hin) as [[v' c'] Hl].
    pose proof (Hlk k) as Hk; rewrite Hl in Hk.
    pose proof (key_count_le k _ Hw); pose proof (key_count_ge _ _ _ Hk); unfold st'; lia.
  - intros k v c Hl; rewrite Hlk, Hl; reflexivity.
Qed.

(** ** [reason] *)

Lemma reason_body_err_intentions jl r st e st' :
  reason_body jl r st = (Err e, st') -> intentions st' = intentions st.
Proof.
  unfold reason_body, bind, lift, ret, raise.
  destruct r as [e0|[s|]]; simpl; [congruence| |congruence].
  destruct (jl s) as [res|]; simpl; [|congruence].
  destruct res as [| | | | |l|m]; simpl; try congruence.
  set (bus := match jlookup "belief_updates" m with Some x => Ok x | None => Ok (JArr []) end).
  assert (Hb : exists x, bus = Ok x) by (unfold bus; destruct (jlookup _ m); eauto).
  destruct Hb as [x ->].
  pose proof (update_beliefs_intentions x st) as H1.
  destruct (update_beliefs x st) as [[[]|e1] st1]; simpl in H1; [|congruence].
  set (nis := match jlookup "new_intentions" m with Some x => Ok x | None => Ok (JArr []) end).
  assert (Hn : exists y, nis = Ok y) by (unfold nis; destruct (jlookup _ m); eauto).
  destruct Hn as [y ->].
  pose proof (create_intentions_intentions y st1) as H2.
  destruct (create_intentions y st1) as [[os|e2] st2]; simpl in H2; [|congruence].
  destruct (jlookup "reasoning" m); discriminate.
Qed.

(** C1: on the reply [{"belief_updates": [{"key":"mood","value":"calm",
    "confidence":0.6}], "new_intentions": [{"action":"rest"}],
    "reasoning":"ok"}], [reason()] stores the belief [mood] with value
    ["calm"] and confidence 0.6, replaces the intentions by exactly one
    Intention with action ["rest"], parameters [{}] and deadline [None],
    and returns that stored list. *)
Theorem reason_sample_reply jl s st (Hs : jl s = Some reply_C1) :
  let '(ret, st') := reason jl st (LlmContent (Some s)) in
  dict_lookup (JStr "mood") (beliefs st') =
    Some (mkBelief (JStr "mood") (JStr "calm") (JFloat (PFin (6 # 10)))) /\
  map snd (intentions st') = [mkIntention (JStr "rest") (JObj []) JNull] /\
  ret = intentions st'.
Proof.
  unfold reason, reason_body, bind, lift, ret; simpl; rewrite Hs; simpl.
  split; [apply lookup_assign_same | split; reflexivity].
Qed.

(** C2: when the service call raises, or its reply does not parse as
    JSON, [reason()] returns the empty list without raising and the agent
    state (beliefs, desires, and also intentions) is exactly as before. *)
Theorem reason_unparseable_keeps_state jl st r
  (Hr : (exists e, r = LlmRaises e) \/
        (exists s, r = LlmContent (Some s) /\ jl s = None)) :
  reason jl st r = ([], st).
Proof.
  destruct Hr as [[e ->] | [s [-> Hs]]].
  - reflexivity.
  - unfold reason, reason_body, bind, lift, ret; simpl; rewrite Hs; reflexivity.
Qed.

(** C3, as amended: when [reason()] fails with any error (failed call,
    unparseable reply, reply of the wrong shape), it returns the empty
    list and the stored intentions and the desires are exactly as before
    the call; the intentions are not cleared. *)
Theorem reason_failure_keeps_intentions jl st r e st'
  (Hfail : reason_body jl r st = (Err e, st')) :
  reason jl st r = ([], st') /\ intentions st' = intentions st /\
  desires st' = desires st.
Proof.
  split; [unfold reason; rewrite Hfail; reflexivity|].
  split; [exact (reason_body_err_intentions _ _ _ _ _ Hfail)|].
  pose proof (reason_body_desires jl r st) as H; rewrite Hfail in H; exact H.
Qed.

(** C3 counterexample: after an unparseable reply the intention of an
    earlier cycle is still stored, so the intentions are not cleared. *)
Lemma reason_failure_not_cleared :
  intentions (snd (reason (fun _ => None) stale_agent (LlmContent (Some "not json"%string))))
  <> [].
Proof. vm_compute; discriminate. Qed.

Lemma update_beliefs_ok_entry x st :
  belief_entry_ok x = true ->
  exists st1, update_beliefs_list [x] st = (Ok tt, st1) /\
              forall p, update_beliefs_list (x :: p) st = update_beliefs_list p st1.
Proof.
  destruct x as [| | | | | |f]; try discriminate; simpl.
  destruct (jlookup "key" f) as [k|]; [|discriminate].
  destruct (jlookup "value" f) as [v|]; [|discriminate].
  intro Hk.
  unfold bind, lift, add_belief, dict_setitem; simpl; rewrite Hk.
  destruct (jlookup "confidence" f); simpl; eexists; split; reflexivity.
Qed.

Lemma update_beliefs_prefix_ok p st :
  forallb belief_entry_ok p = true -> fst (update_beliefs_list p st) = Ok tt.
Proof.
  revert st; induction p as [|x p IH]; intros st H; [reflexivity|].
  simpl in H; apply andb_true_iff in H as [Hx Hp].
  destruct (update_beliefs_ok_entry x st Hx) as [st1 [_ ->]].
  apply IH; exact Hp.
Qed.

Lemma update_beliefs_fail_fast p f rest st :
  forallb belief_entry_ok p = true ->
  (jlookup "key" f = None \/ jlookup "value" f = None) ->
  update_beliefs_list (p ++ JObj f :: rest) st =
  (Err KeyError, snd (update_beliefs_list p st)).
Proof.
  intros Hp Hmiss; revert st; induction p as [|x p IH]; intro st.
  - simpl; unfold bind, lift.
    destruct Hmiss as [-> | Hv]; [reflexivity|].
    simpl; destruct (jlookup "key" f); [rewrite Hv|]; reflexivity.
  - simpl in Hp; apply andb_true_iff in Hp as [Hx Hp].
    destruct (update_beliefs_ok_entry x st Hx) as [st1 [_ E]].
    simpl app; rewrite !E; apply IH; exact Hp.
Qed.

Lemma firstn_app_length {A} (l1 l2 : list A) : firstn (length l1) (l1 ++ l2) = l1.
Proof. induction l1 as [|x l1 IH]; simpl; [reflexivity|]; rewrite IH; reflexivity. Qed.

(** C4: if entry [i] of [belief_updates] is an object without ["key"] or
    without ["value"] and the entries before it are well-formed updates,
    [reason()] returns the empty list without raising, and the agent is
    left exactly as after applying entries [0 .. i-1] with [add_belief]
    (which all succeed): nothing at or after [i] is applied and the
    intentions are not replaced. *)
Theorem reason_belief_updates_fail_fast jl s st m l i f
  (Hs : jl s = Some (JObj m))
  (Hl : jlookup "belief_updates" m = Some (JArr l))
  (Hpre : forallb belief_entry_ok (firstn i l) = true)
  (Hbad : nth_error l i = Some (JObj f))
  (Hmiss : jlookup "key" f = None \/ jlookup "value" f = None) :
  fst (update_beliefs_list (firstn i l) st) = Ok tt /\
  reason jl st (LlmContent (Some s)) = ([], snd (update_beliefs_list (firstn i l) st)) /\
  intentions (snd (update_beliefs_list (firstn i l) st)) = intentions st.
Proof.
  destruct (nth_error_split l i Hbad) as (l1 & l2 & -> & <-).
  rewrite firstn_app_length in *.
  split; [apply update_beliefs_prefix_ok; exact Hpre|].
  split; [|apply update_beliefs_list_intentions].
  unfold reason, reason_body, bind, lift, ret; simpl; rewrite Hs; simpl; rewrite Hl.
  unfold update_beliefs, bind, lift; simpl.
  rewrite (update_beliefs_fail_fast l1 f l2 st Hpre Hmiss); reflexivity.
Qed.

(** ** [execute_intentions] and [cycle] *)

Lemma remove_head o rest : remove_first o (o :: rest) = Some rest.
Proof. simpl; rewrite Nat.eqb_refl; reflexivity. Qed.

Lemma set_intentions_twice l l' st :
  set_intentions l (set_intentions l' st) = set_intentions l st.
Proof. reflexivity. Qed.

(** The deadline check of the head intention either falls through with
    the state untouched or expires it, removing it from the live list. *)
Lemma deadline_check_head ps pf t o rest st :
  intentions st = o :: rest ->
  catch_value_type (deadline_try ps pf t o) st = (Ok None, st) \/
  catch_value_type (deadline_try ps pf t o) st =
    (Ok (Some ("EXPIRED: " ++ ps (action (snd o)))%string), set_intentions rest st).
Proof.
  intro Hst.
  unfold catch_value_type, deadline_try, bind, lift, ret, intentions_remove.
  destruct (match deadline (snd o) with
            | JStr s => match pf s with Some f => Ok (JFloat f) | None => Err ValueError end
            | d => Ok d
            end) as [dl|e] eqn:Edl.
  - destruct (py_gt_time t dl) as [[|]|e] eqn:Egt.
    + right; rewrite Hst, remove_head; reflexivity.
    + left; reflexivity.
    + unfold py_gt_time in Egt; destruct (py_num dl); [discriminate|].
      injection Egt as <-; left; reflexivity.
  - left; destruct (deadline (snd o)); try discriminate;
      destruct (pf s); discriminate || (injection Edl as <-; reflexivity).
Qed.

(** With an action capability that always returns, the loop consumes the
    whole snapshot and empties the live list. *)
Lemma exec_loop_total ps pf act t g
  (Hact : forall a p, act a p = Ok (g a p)) :
  forall l res st, intentions st = l ->
  exists out, exec_loop ps pf act t l res st = (Ok (res ++ out), set_intentions [] st).
Proof.
  induction l as [|o rest IH]; intros res st Hst; cbn [exec_loop].
  - exists []; rewrite app_nil_r.
    destruct st; simpl in Hst; subst; reflexivity.
  - unfold bind at 1.
    assert (Hexp : (if py_truthy (deadline (snd o))
                    then catch_value_type (deadline_try ps pf t o) else ret None) st
                   = (Ok None, st) \/
                   (if py_truthy (deadline (snd o))
                    then catch_value_type (deadline_try ps pf t o) else ret None) st
                   = (Ok (Some ("EXPIRED: " ++ ps (action (snd o)))%string),
                      set_intentions rest st)).
    { destruct (py_truthy _); [apply deadline_check_head; exact Hst|left; reflexivity]. }
    destruct Hexp as [-> | ->].
    + unfold bind, lift, intentions_remove; rewrite Hact, Hst, remove_head.
      destruct (IH (res ++ [("EXECUTED: " ++ ps (action (snd o)) ++ " -> "
                              ++ g (action (snd o)) (parameters (snd o)))%string])
                   (set_intentions rest st) eq_refl) as [out Hout].
      exists (("EXECUTED: " ++ ps (action (snd o)) ++ " -> "
                ++ g (action (snd o)) (parameters (snd o)))%string :: out).
      rewrite Hout, <- app_assoc; reflexivity.
    + destruct (IH (res ++ [("EXPIRED: " ++ ps (action (snd o)))%string])
                   (set_intentions rest st) eq_refl) as [out Hout].
      exists (("EXPIRED: " ++ ps (action (snd o)))%string :: out).
      rewrite Hout, <- app_assoc; reflexivity.
Qed.

(** The head intention with a falsy deadline goes straight to the action. *)
Lemma exec_loop_falsy_head ps pf act t n i rest res st r :
  intentions st = (n, i) :: rest ->
  py_truthy (deadline i) = false ->
  act (action i) (parameters i) = Ok r ->
  exec_loop ps pf act t ((n, i) :: rest) res st =
  exec_loop ps pf act t rest (res ++ [("EXECUTED: " ++ ps (action i) ++ " -> " ++ r)%string])
            (set_intentions rest st).
Proof.
  intros Hst Hd Hact; cbn [exec_loop snd]; rewrite Hd.
  unfold bind, ret, lift, intentions_remove; rewrite Hact, Hst, remove_head; reflexivity.
Qed.

Lemma exec_loop_falsy_head_raises ps pf act t n i rest res st e :
  py_truthy (deadline i) = false ->
  act (action i) (parameters i) = Err e ->
  exec_loop ps pf act t ((n, i) :: rest) res st = (Err e, st).
Proof.
  intros Hd Hact; cbn [exec_loop snd]; rewrite Hd.
  unfold bind, ret, lift; rewrite Hact; reflexivity.
Qed.

Lemma reason_state jl st r : snd (reason jl st r) = snd (reason_body jl r st).
Proof. unfold reason; destruct (reason_body jl r st) as [[]]; reflexivity. Qed.

(** C7: one intention with no deadline is executed by the default action
    capability, reported as ["EXECUTED: <action> -> Action '<action>' with
    params <parameters> completed"], and removed; an immediate second call
    finds no intention left and returns the empty list. *)
Theorem execute_once_then_empty ps pf t st n i
  (Hst : intentions st = [(n, i)]) (Hd : deadline i = JNull) :
  let '(r1, st1) := execute_intentions ps pf (execute_action ps) t st in
  r1 = Ok [("EXECUTED: " ++ ps (action i) ++ " -> " ++ "Action '" ++ ps (action i)
            ++ "' with params " ++ ps (parameters i) ++ " completed")%string] /\
  intentions st1 = [] /\
  execute_intentions ps pf (execute_action ps) t st1 = (Ok [], st1).
Proof.
  unfold execute_intentions; rewrite Hst.
  rewrite (exec_loop_falsy_head ps pf (execute_action ps) t n i [] [] st
             ("Action '" ++ ps (action i) ++ "' with params " ++ ps (parameters i)
              ++ " completed")%string Hst) by (rewrite ?Hd; reflexivity).
  repeat split; reflexivity.
Qed.

(** ** Further properties of [execute_intentions] and [cycle] *)


(** The local [results] list only collects: starting the loop from a
    non-empty [results] prefixes the outcome and changes nothing else. *)
Lemma exec_loop_acc ps pf act t l :
  forall res st,
  exec_loop ps pf act t l res st =
  let '(r, st') := exec_loop ps pf act t l [] st in
  (match r with Ok out => Ok (res ++ out) | Err e => Err e end, st').
Proof.
  induction l as [|o rest IH]; intros res st; cbn [exec_loop].
  - unfold ret; rewrite app_nil_r; reflexivity.
  - unfold bind.
    destruct ((if py_truthy (deadline (snd o))
               then catch_value_type (deadline_try ps pf t o) else ret None) st)
      as [[[msg|]|e] st1].
    + rewrite (IH (res ++ [msg])), (IH ([] ++ [msg])).
      destruct (exec_loop ps pf act t rest [] st1) as [[out|e] st2];
        [rewrite <- app_assoc|]; reflexivity.
    + unfold lift.
      destruct (act (action (snd o)) (parameters (snd o))) as [r|e]; [|reflexivity].
      unfold intentions_remove.
      destruct (remove_first o (intentions st1)) as [l'|]; [|reflexivity].
      rewrite (IH (res ++ _)), (IH ([] ++ _)).
      destruct (exec_loop ps pf act t rest [] _) as [[out|e] st2];
        [rewrite <- app_assoc|]; reflexivity.
    + reflexivity.
Qed.

(** The deadline check of the head of the live list, described by
    [deadline_expired]. *)
Lemma head_expiry ps pf t o rest st :
  intentions st = o :: rest ->
  (if py_truthy (deadline (snd o))
   then catch_value_type (deadline_try ps pf t o) else ret None) st =
  if deadline_expired pf t (deadline (snd o))
  then (Ok (Some ("EXPIRED: " ++ ps (action (snd o)))%string), set_intentions rest st)
  else (Ok None, st).
Proof.
  intro Hst; unfold deadline_expired.
  destruct (py_truthy (deadline (snd o))); [cbn [andb]|reflexivity].
  unfold catch_value_type, deadline_try, bind, lift, ret, intentions_remove, py_gt_time.
  destruct (deadline (snd o)) as [|b|z|x|s|l|m];
    try (destruct (pf s) as [x|]); cbn [option_map py_num];
    try reflexivity;
    (destruct (pyfloat_gt _ _); [rewrite Hst, remove_head|]; reflexivity).
Qed.


(** With an action capability that always returns, the loop reports
    each remaining intention as [exec_report] describes. *)
Lemma exec_loop_reports ps pf act g t
  (Hact : forall a p, act a p = Ok (g a p)) :
  forall l res st, intentions st = l ->
  exec_loop ps pf act t l res st =
  (Ok (res ++ map (exec_report ps pf g t) (map snd l)), set_intentions [] st).
Proof.
  induction l as [|o rest IH]; intros res st0 Hst; cbn [exec_loop map].
  - rewrite app_nil_r; destruct st0; simpl in Hst; subst; reflexivity.
  - unfold bind at 1; rewrite (head_expiry ps pf t o rest st0 Hst).
    unfold exec_report at 1.
    destruct (deadline_expired pf t (deadline (snd o))).
    + rewrite IH by reflexivity; rewrite <- app_assoc; reflexivity.
    + unfold bind, lift, intentions_remove; rewrite Hact, Hst, remove_head.
      rewrite IH by reflexivity; rewrite <- app_assoc; reflexivity.
Qed.

(** X2: with an action capability that always returns ([act a p = g a p]),
    [execute_intentions] reports every stored intention in list order, as
    [exec_report] describes (expired or executed), and leaves the live
    list empty; nothing else in the agent changes. *)
Theorem execute_reports_all ps pf act g t st
  (Hact : forall a p, act a p = Ok (g a p)) :
  execute_intentions ps pf act t st =
  (Ok (map (exec_report ps pf g t) (map snd (intentions st))), set_intentions [] st).
Proof.
  unfold execute_intentions.
  rewrite (exec_loop_reports ps pf act g t Hact (intentions st) [] st eq_refl).
  reflexivity.
Qed.

(** X3: an intention at the head of the live list whose deadline has
    passed ([deadline_expired]) is reported as ["EXPIRED: <action>"] and
    removed without the action capability being called, whatever that
    capability does (even one that raises); the rest of the list is then
    processed as by a call on the remaining intentions. *)
Theorem execute_expired_head_skips_action ps pf act t st n i rest
  (Hst : intentions st = (n, i) :: rest)
  (Hexp : deadline_expired pf t (deadline i) = true) :
  execute_intentions ps pf act t st =
  let '(r, st') := execute_intentions ps pf act t (set_intentions rest st) in
  (match r with
   | Ok out => Ok (("EXPIRED: " ++ ps (action i))%string :: out)
   | Err e => Err e
   end, st').
Proof.
  unfold execute_intentions; rewrite Hst; cbn [exec_loop].
  unfold bind at 1; rewrite (head_expiry ps pf t (n, i) rest st Hst).
  cbn [snd]; rewrite Hexp.
  rewrite exec_loop_acc; reflexivity.
Qed.

(** One turn of the loop with [o] at the head of the live list. *)
Lemma exec_loop_head ps pf act t o rest res st :
  intentions st = o :: rest ->
  exec_loop ps pf act t (o :: rest) res st =
  if deadline_expired pf t (deadline (snd o))
  then exec_loop ps pf act t rest (res ++ [("EXPIRED: " ++ ps (action (snd o)))%string])
         (set_intentions rest st)
  else (r <- lift (act (action (snd o)) (parameters (snd o))) ;;
        intentions_remove o ;;;
        exec_loop ps pf act t rest
          (res ++ [("EXECUTED: " ++ ps (action (snd o)) ++ " -> " ++ r)%string])) st.
Proof.
  intro Hst; cbn [exec_loop].
  unfold bind at 1; rewrite (head_expiry ps pf t o rest st Hst).
  destruct (deadline_expired pf t (deadline (snd o))); reflexivity.
Qed.

(** How a run of the loop on the live list ends: either it returns and
    the live list is empty, or the action capability raised on an
    intention whose deadline had not expired, and that intention and the
    ones after it are left in the live list. *)
Lemma exec_loop_outcome ps pf act t :
  forall l res st, intentions st = l ->
  (exists out, exec_loop ps pf act t l res st = (Ok out, set_intentions [] st)) \/
  (exists pre n i post e,
     l = pre ++ (n, i) :: post /\
     deadline_expired pf t (deadline i) = false /\
     act (action i) (parameters i) = Err e /\
     exec_loop ps pf act t l res st = (Err e, set_intentions ((n, i) :: post) st)).
Proof.
  induction l as [|o rest IH]; intros res st Hst.
  - left; exists res; destruct st; simpl in Hst; subst; reflexivity.
  - rewrite (exec_loop_head ps pf act t o rest res st Hst).
    destruct (deadline_expired pf t (deadline (snd o))) eqn:Ed.
    + destruct (IH (res ++ [("EXPIRED: " ++ ps (action (snd o)))%string])
                   (set_intentions rest st) eq_refl)
        as [[out Hout] | (pre & n & i & post & e & Hl & Hd & He & Hout)].
      * left; exists out; exact Hout.
      * right; exists (o :: pre), n, i, post, e; subst rest.
        repeat split; assumption.
    + destruct o as [n i]; cbn [snd] in *.
      unfold bind, lift.
      destruct (act (action i) (parameters i)) as [r|e] eqn:Ea.
      * unfold intentions_remove; rewrite Hst, remove_head.
        destruct (IH (res ++ [("EXECUTED: " ++ ps (action i) ++ " -> " ++ r)%string])
                     (set_intentions rest st) eq_refl)
          as [[out Hout] | (pre & n' & i' & post & e & Hl & Hd & He & Hout)].
        -- left; exists out; exact Hout.
        -- right; exists ((n, i) :: pre), n', i', post, e; subst rest.
           repeat split; assumption.
      * right; exists [], n, i, rest, e.
        repeat split; try assumption.
        destruct st; simpl in Hst; subst; reflexivity.
Qed.

(** X4: the only exceptions [execute_intentions] raises are those of the
    action capability (the [ValueError]/[TypeError] of a deadline check
    never escape); when it raises, the failing intention had an unexpired
    deadline, the intentions before it have been processed and removed,
    and the failing one and all after it stay in the live list. *)
Theorem execute_error_origin ps pf act t st e st'
  (Hraise : execute_intentions ps pf act t st = (Err e, st')) :
  exists pre n i post,
    intentions st = pre ++ (n, i) :: post /\
    deadline_expired pf t (deadline i) = false /\
    act (action i) (parameters i) = Err e /\
    st' = set_intentions ((n, i) :: post) st.
Proof.
  unfold execute_intentions in Hraise.
  destruct (exec_loop_outcome ps pf act t (intentions st) [] st eq_refl)
    as [[out Hout] | (pre & n & i & post & e' & Hl & Hd & He & Hout)];
    rewrite Hout in Hraise; [discriminate|].
  injection Hraise as <- <-.
  exists pre, n, i, post; repeat split; assumption.
Qed.

(** X1: when [cycle] returns, the live intentions list has been emptied
    by the execution, so the reported [intentions_formed] is always 0;
    the agent is the one left by [reason] with the intentions cleared, the
    reported beliefs are its belief keys and [active_desires] counts the
    desires held before the call. *)
Theorem cycle_reports_zero_formed jl ps pf act t r st res st'
  (Hcycle : cycle jl ps pf act t r st = (Ok res, st')) :
  st' = set_intentions [] (snd (reason jl st r)) /\
  intentions_formed res = 0 /\
  current_beliefs res = map fst (beliefs (snd (reason jl st r))) /\
  active_desires res = length (desires st).
Proof.
  rewrite reason_state.
  pose proof (reason_body_desires jl r st) as Hdes.
  unfold cycle in Hcycle.
  destruct (reason_body jl r st) as [ok st1]; cbn [snd] in *.
  unfold execute_intentions in Hcycle.
  destruct (exec_loop_outcome ps pf act t (intentions st1) [] st1 eq_refl)
    as [[out Hout] | (pre & n & i & post & e & Hl & Hd & He & Hout)];
    rewrite Hout in Hcycle; [|discriminate].
  injection Hcycle as <- <-.
  repeat split.
  - destruct ok; reflexivity.
  - simpl; rewrite Hdes; reflexivity.
Qed.


(** The intentions before [rest] in the live list that expire or whose
    action returns are consumed one by one. *)
Lemma exec_loop_skip_prefix ps pf act t rest :
  forall (pre : list obj) res st, intentions st = pre ++ rest ->
  (forall n i, In (n, i) pre ->
     deadline_expired pf t (deadline i) = true \/ exists out, act (action i) (parameters i) = Ok out) ->
  exists res', exec_loop ps pf act t (pre ++ rest) res st =
               exec_loop ps pf act t rest res' (set_intentions rest st).
Proof.
  induction pre as [|[n i] pre IH]; intros res st Hst Hpre.
  - exists res; destruct st; simpl in Hst; subst; reflexivity.
  - simpl app in *; rewrite (exec_loop_head ps pf act t (n, i) (pre ++ rest) res st Hst).
    cbn [snd].
    destruct (deadline_expired pf t (deadline i)) eqn:Ed.
    + apply (IH _ (set_intentions (pre ++ rest) st) eq_refl).
      intros n' i' Hin; exact (Hpre n' i' (or_intror Hin)).
    + destruct (Hpre n i (or_introl eq_refl)) as [Hx | [out Hout]]; [congruence|].
      unfold bind, lift, intentions_remove; rewrite Hout, Hst, remove_head.
      apply (IH _ (set_intentions (pre ++ rest) st) eq_refl).
      intros n' i' Hin; exact (Hpre n' i' (or_intror Hin)).
Qed.

(** C10: every intention whose deadline is [0], [0.0] or the empty string
    is executed, wherever it stands in the list, by any action capability
    that returns: its line in the result is
    ["EXECUTED: <action> -> <result>"], never ["EXPIRED: ..."], although
    time 0 is in the past; the deadline test is a truthiness test, not a
    comparison with [None]. *)
Theorem execute_falsy_deadline_runs ps pf act g t st k n i
  (Hact : forall a p, act a p = Ok (g a p))
  (Hk : nth_error (intentions st) k = Some (n, i))
  (Hd : deadline i = JInt 0 \/ deadline i = JFloat (PFin 0) \/ deadline i = JStr EmptyString) :
  exists out,
    execute_intentions ps pf act t st = (Ok out, set_intentions [] st) /\
    nth_error out k =
      Some ("EXECUTED: " ++ ps (action i) ++ " -> " ++ g (action i) (parameters i))%string.
Proof.
  exists (map (exec_report ps pf g t) (map snd (intentions st))).
  split.
  - unfold execute_intentions.
    rewrite (exec_loop_reports ps pf act g t Hact (intentions st) [] st eq_refl).
    reflexivity.
  - rewrite map_map, nth_error_map; unfold obj in *; rewrite Hk; cbn [option_map snd].
    unfold exec_report, deadline_expired.
    destruct Hd as [-> | [-> | ->]]; reflexivity.
Qed.

(** C6 at the failing input: a deadline of [0.0] lies before the current
    time 1 and yet the intention is executed, while the same intention with
    deadline [0.5] is reported as expired. *)
Theorem execute_zero_float_deadline_not_expired ps pf :
  execute_intentions ps pf (execute_action ps) 1
    (mkAgent [] [] [(0, mkIntention (JStr "rest") (JObj []) (JFloat (PFin 0)))] 1) =
  (Ok [("EXECUTED: " ++ ps (JStr "rest") ++ " -> " ++ "Action '" ++ ps (JStr "rest")
        ++ "' with params " ++ ps (JObj []) ++ " completed")%string],
   mkAgent [] [] [] 1) /\
  execute_intentions ps pf (execute_action ps) 1
    (mkAgent [] [] [(0, mkIntention (JStr "rest") (JObj []) (JFloat (PFin (1 # 2))))] 1) =
  (Ok [("EXPIRED: " ++ ps (JStr "rest"))%string], mkAgent [] [] [] 1).
Proof. split; reflexivity. Qed.

(** C8: with the default action capability [execute_intentions] returns
    normally whatever the intentions are.  When a substituted action
    capability raises [e] on an intention that the loop reaches (every
    intention before it expired or had its action return) and whose
    deadline has not expired (none, a future one, or one that [float()]
    or the comparison refuses), the exception propagates unchanged out of
    [execute_intentions], which leaves that intention and the ones after
    it stored, and out of [cycle]. *)
Theorem action_errors_propagate jl ps pf t act e st r (pre : list obj) n i (post : list obj)
  (Hst : intentions (snd (reason jl st r)) = pre ++ (n, i) :: post)
  (Hpre : forall n' i', In (n', i') pre ->
     deadline_expired pf t (deadline i') = true \/
     exists out, act (action i') (parameters i') = Ok out)
  (Hd : deadline_expired pf t (deadline i) = false)
  (Hact : act (action i) (parameters i) = Err e) :
  (forall st0, exists out,
     execute_intentions ps pf (execute_action ps) t st0 = (Ok out, set_intentions [] st0)) /\
  execute_intentions ps pf act t (snd (reason jl st r)) =
    (Err e, set_intentions ((n, i) :: post) (snd (reason jl st r))) /\
  fst (cycle jl ps pf act t r st) = Err e.
Proof.
  assert (Hexec : execute_intentions ps pf act t (snd (reason jl st r)) =
                  (Err e, set_intentions ((n, i) :: post) (snd (reason jl st r)))).
  { unfold execute_intentions; rewrite Hst.
    destruct (exec_loop_skip_prefix ps pf act t ((n, i) :: post) pre [] _ Hst Hpre)
      as [res' ->].
    pose proof (exec_loop_head ps pf act t (n, i) post res'
                  (set_intentions ((n, i) :: post) (snd (reason jl st r))) eq_refl) as Hh.
    cbn [snd] in Hh; rewrite Hd in Hh; unfold bind, lift in Hh; rewrite Hact in Hh.
    exact Hh. }
  split; [|split; [exact Hexec|]].
  - intro st0; eexists.
    exact (exec_loop_reports ps pf (execute_action ps)
             (fun a p => "Action '" ++ ps a ++ "' with params " ++ ps p ++ " completed")%string
             t (fun a p => eq_refl) (intentions st0) [] st0 eq_refl).
  - rewrite reason_state in Hexec.
    unfold cycle; destruct (reason_body jl r st) as [ok st1]; simpl in Hexec.
    rewrite Hexec; reflexivity.
Qed.

(** ** Further properties of [reason] *)

(** Well-formed belief updates are stored one after the other. *)
Lemma update_beliefs_list_ok bl :
  forallb belief_entry_ok bl = true -> forall st,
  update_beliefs_list bl st = (Ok tt, set_beliefs (apply_entries (beliefs st) bl) st).
Proof.
  induction bl as [|x bl IH]; intros H st.
  - destruct st; reflexivity.
  - simpl in H; apply andb_true_iff in H as [Hx Hbl].
    destruct x as [| | | | | |f]; try discriminate; simpl in Hx.
    destruct (jlookup "key" f) as [k|] eqn:Ek; [|discriminate].
    destruct (jlookup "value" f) as [v|] eqn:Ev; [|discriminate].
    cbn [update_beliefs_list]; unfold bind, lift, py_getitem, py_get.
    rewrite Ek, Ev; unfold add_belief, dict_setitem; rewrite Hx.
    unfold apply_entries; cbn [fold_left entry_belief]; rewrite Ek, Ev.
    destruct (jlookup "confidence" f); cbv beta iota;
      rewrite IH by exact Hbl; reflexivity.
Qed.

(** Accepted intention entries become fresh Intention objects, in order. *)
Lemma create_intentions_list_ok nl :
  forallb intention_entry_ok nl = true -> forall st,
  exists os, create_intentions_list nl st = (Ok os, set_next_oid (length nl + next_oid st) st)
             /\ map snd os = map entry_intention nl.
Proof.
  induction nl as [|x nl IH]; intros H st.
  - exists []; destruct st; split; reflexivity.
  - simpl in H; apply andb_true_iff in H as [Hx Hnl].
    destruct x as [| | | | | |f]; try discriminate; simpl in Hx.
    destruct (jlookup "action" f) as [a|] eqn:Ea; [|discriminate].
    destruct (IH Hnl (set_next_oid (S (next_oid st)) st)) as [os [Hc Hm]].
    cbn [create_intentions_list]; unfold bind at 1, lift at 1, py_getitem; rewrite Ea.
    unfold bind, lift, py_get, new_intention, ret.
    exists ((next_oid st, entry_intention (JObj f)) :: os).
    cbn [map snd entry_intention]; rewrite Ea, Hm.
    destruct (jlookup "parameters" f), (jlookup "deadline" f); rewrite Hc;
      (split; [|reflexivity]);
      cbn [length]; rewrite Nat.add_succ_comm; reflexivity.
Qed.

(** The first entry that is not an object with ["action"] raises, after
    the accepted entries before it have allocated their objects. *)
Lemma create_intentions_list_fail p x rest :
  forallb intention_entry_ok p = true -> intention_entry_ok x = false -> forall st,
  exists e, create_intentions_list (p ++ x :: rest) st =
            (Err e, set_next_oid (length p + next_oid st) st).
Proof.
  intros Hp Hx; induction p as [|y p IH]; intro st.
  - destruct x as [| | | | | |f];
      try (exists TypeError; destruct st; reflexivity).
    simpl in Hx; destruct (jlookup "action" f) as [a|] eqn:Ea; [discriminate|].
    exists KeyError; cbn [create_intentions_list app].
    unfold bind, lift, py_getitem; rewrite Ea; destruct st; reflexivity.
  - simpl in Hp; apply andb_true_iff in Hp as [Hy Hp].
    destruct (IH Hp (set_next_oid (S (next_oid st)) st)) as [e He].
    exists e.
    destruct y as [| | | | | |f]; try discriminate; simpl in Hy.
    destruct (jlookup "action" f) as [a|] eqn:Ea; [|discriminate].
    cbn [create_intentions_list app]; unfold bind at 1, lift at 1, py_getitem; rewrite Ea.
    unfold bind, lift, py_get, new_intention, ret.
    destruct (jlookup "parameters" f), (jlookup "deadline" f);
      fold (@bind (list obj) (list obj)); rewrite He;
      cbn [length]; rewrite Nat.add_succ_comm; reflexivity.
Qed.


(** X5: on a reply that parses to an object whose [belief_updates] (a
    missing one counts as [[]]) are all accepted updates and whose
    [new_intentions] (likewise) are all objects with an ["action"],
    [reason()] stores the updates in order (confidence as given, [1.0]
    only when absent), replaces the intentions by new Intention objects
    built from the entries in order (parameters [{}] and deadline [None]
    when absent), keeps the desires, and returns the stored list itself. *)
Theorem reason_success_shape jl s st m bl nl
  (Hs : jl s = Some (JObj m))
  (Hb : jlookup "belief_updates" m = Some (JArr bl) \/
        (jlookup "belief_updates" m = None /\ bl = []))
  (Hn : jlookup "new_intentions" m = Some (JArr nl) \/
        (jlookup "new_intentions" m = None /\ nl = []))
  (Hbok : forallb belief_entry_ok bl = true)
  (Hnok : forallb intention_entry_ok nl = true) :
  let '(ret, st') := reason jl st (LlmContent (Some s)) in
  ret = intentions st' /\
  map snd ret = map entry_intention nl /\
  beliefs st' = apply_entries (beliefs st) bl /\
  desires st' = desires st.
Proof.
  assert (Hb' : py_get (JObj m) "belief_updates" (JArr []) = Ok (JArr bl))
    by (destruct Hb as [Hb | [Hb ->]]; unfold py_get; rewrite Hb; reflexivity).
  assert (Hn' : py_get (JObj m) "new_intentions" (JArr []) = Ok (JArr nl))
    by (destruct Hn as [Hn | [Hn ->]]; unfold py_get; rewrite Hn; reflexivity).
  destruct (create_intentions_list_ok nl Hnok
              (set_beliefs (apply_entries (beliefs st) bl) st)) as [os [Hc Hm]].
  unfold reason, reason_body.
  unfold bind at 1, raise, ret at 1; cbv beta iota.
  unfold bind at 1, lift at 1; cbv beta iota.
  unfold bind at 1, lift at 1; rewrite Hs; cbv beta iota.
  unfold bind at 1, lift at 1; rewrite Hb'; cbv beta iota.
  unfold bind at 1, update_beliefs, bind at 1, lift at 1; cbv beta iota.
  cbn [py_iter]; rewrite (update_beliefs_list_ok bl Hbok); cbv beta iota.
  unfold bind at 1, lift at 1; rewrite Hn'; cbv beta iota.
  unfold bind at 1, create_intentions, bind at 1, lift at 1; cbv beta iota.
  cbn [py_iter]; rewrite Hc; cbv beta iota.
  unfold bind at 1, assign_intentions; cbv beta iota.
  unfold bind at 1, lift at 1, py_get at 1.
  destruct (jlookup "reasoning" m); cbv beta iota;
    (split; [reflexivity | split; [exact Hm | split; reflexivity]]).
Qed.


(** X6: if entry [j] of [new_intentions] is not an object with an
    ["action"] (the entries before it being accepted), [reason()] returns
    the empty list without raising, the stored intentions are not
    replaced, and yet all the belief updates of the reply have been
    stored: the reply is not applied transactionally. *)
Theorem reason_bad_intention_keeps_beliefs jl s st m bl nl j x
  (Hs : jl s = Some (JObj m))
  (Hb : jlookup "belief_updates" m = Some (JArr bl) \/
        (jlookup "belief_updates" m = None /\ bl = []))
  (Hbok : forallb belief_entry_ok bl = true)
  (Hn : jlookup "new_intentions" m = Some (JArr nl))
  (Hpre : forallb intention_entry_ok (firstn j nl) = true)
  (Hbad : nth_error nl j = Some x)
  (Hx : intention_entry_ok x = false) :
  let '(ret, st') := reason jl st (LlmContent (Some s)) in
  ret = [] /\
  intentions st' = intentions st /\
  beliefs st' = apply_entries (beliefs st) bl /\
  desires st' = desires st.
Proof.
  destruct (nth_error_split nl j Hbad) as (l1 & l2 & Hnl & Hlen).
  rewrite Hnl, <- Hlen, firstn_app_length in Hpre.
  assert (Hb' : py_get (JObj m) "belief_updates" (JArr []) = Ok (JArr bl))
    by (destruct Hb as [Hb | [Hb ->]]; unfold py_get; rewrite Hb; reflexivity).
  assert (Hn' : py_get (JObj m) "new_intentions" (JArr []) = Ok (JArr nl))
    by (unfold py_get; rewrite Hn; reflexivity).
  destruct (create_intentions_list_fail l1 x l2 Hpre Hx
              (set_beliefs (apply_entries (beliefs st) bl) st)) as [e He].
  unfold reason, reason_body.
  unfold bind at 1, raise, ret at 1; cbv beta iota.
  unfold bind at 1, lift at 1; cbv beta iota.
  unfold bind at 1, lift at 1; rewrite Hs; cbv beta iota.
  unfold bind at 1, lift at 1; rewrite Hb'; cbv beta iota.
  unfold bind at 1, update_beliefs, bind at 1, lift at 1; cbv beta iota.
  cbn [py_iter]; rewrite (update_beliefs_list_ok bl Hbok); cbv beta iota.
  unfold bind at 1, lift at 1; rewrite Hn'; cbv beta iota.
  unfold bind at 1, create_intentions, bind at 1, lift at 1; cbv beta iota.
  cbn [py_iter]; rewrite Hnl, He; cbv beta iota.
  repeat split.
Qed.

(** X7: a reply whose content is [None], or whose JSON is not an object
    (a list, a string, a number, [true]/[false] or [null]), makes
    [reason()] return the empty list with the agent untouched. *)
Theorem reason_non_object_reply jl st s v
  (Hs : jl s = Some v) (Hv : forall m, v <> JObj m) :
  reason jl st (LlmContent None) = ([], st) /\
  reason jl st (LlmContent (Some s)) = ([], st).
Proof.
  split; [reflexivity|].
  unfold reason, reason_body, bind, lift, ret; cbv beta iota; rewrite Hs.
  destruct v as [| | | | | |m]; try reflexivity.
  exfalso; exact (Hv m eq_refl).
Qed.

(** X8: a reply whose [new_intentions] is an empty container ([[]],
    [{}] or the empty string) and that has no [belief_updates] clears the
    stored intentions: [reason()] returns the empty list and the agent
    holds no intention afterwards, the beliefs and desires being kept. *)
Theorem reason_empty_new_intentions_clears jl s st m
  (Hs : jl s = Some (JObj m))
  (Hb : jlookup "belief_updates" m = None)
  (Hn : jlookup "new_intentions" m = Some (JArr []) \/
        jlookup "new_intentions" m = Some (JObj []) \/
        jlookup "new_intentions" m = Some (JStr EmptyString)) :
  let '(ret, st') := reason jl st (LlmContent (Some s)) in
  ret = [] /\ intentions st' = [] /\ beliefs st' = beliefs st /\ desires st' = desires st.
Proof.
  assert (Hn' : exists v, py_get (JObj m) "new_intentions" (JArr []) = Ok v /\
                          py_iter v = Ok [])
    by (destruct Hn as [Hn | [Hn | Hn]]; eexists; unfold py_get; rewrite Hn;
        split; reflexivity).
  destruct Hn' as [v [Hn' Hv]].
  unfold reason, reason_body.
  unfold bind at 1, raise, ret at 1; cbv beta iota.
  unfold bind at 1, lift at 1; cbv beta iota.
  unfold bind at 1, lift at 1; rewrite Hs; cbv beta iota.
  unfold bind at 1, lift at 1, py_get at 1; rewrite Hb; cbv beta iota.
  unfold bind at 1, update_beliefs, bind at 1, lift at 1; cbv beta iota.
  cbn [py_iter update_beliefs_list]; unfold ret at 1; cbv beta iota.
  unfold bind at 1, lift at 1; rewrite Hn'; cbv beta iota.
  unfold bind at 1, create_intentions, bind at 1, lift at 1; rewrite Hv; cbv beta iota.
  cbn [create_intentions_list]; unfold ret at 1; cbv beta iota.
  unfold bind at 1, assign_intentions; cbv beta iota.
  unfold bind at 1, lift at 1, py_get at 1.
  destruct (jlookup "reasoning" m); cbv beta iota; repeat split.
Qed.


(** ** Further properties of the command loop *)

Lemma split_ws_length m : forall l, length (split_ws m l) <= S m.
Proof.
  induction m as [|m IH]; intro l; simpl; destruct (drop_ws l) as [|c r]; simpl; try lia.
  destruct (if py_isspace c then ([], c :: r) else _) as [w rest].
  simpl; specialize (IH rest); lia.
Qed.

Lemma prefix_app p s : String.prefix p s = true -> exists r, s = (p ++ r)%string.
Proof.
  revert s; induction p as [|a p IH]; intros s H.
  - exists s; reflexivity.
  - destruct s as [|b s]; [discriminate|].
    simpl in H; destruct (Ascii.ascii_dec a b) as [<-|]; [|discriminate].
    destruct (IH s H) as [r ->]; exists r; reflexivity.
Qed.

(** X9: the [add belief] command stores the third word as the key and
    the whole remainder of the line as the value, always with confidence
    [1.0]: [split(maxsplit=3)] yields at most four parts, so the
    [float(parts[4])] branch is dead; a line of fewer than four parts
    changes nothing.  The command never reaches the service or the
    executor. *)
Theorem session_add_belief_confidence_one jl ps pf pi act t reply raw st
  (Hcmd : py_startswith (py_lower (py_strip raw)) "add belief" = true) :
  session_step jl ps pf pi act t reply raw st =
  (SessionContinue,
   match py_split (py_strip raw) 3 with
   | _ :: _ :: k :: v :: _ => snd (add_belief (JStr k) (JStr v) (JFloat (PFin 1)) st)
   | _ => st
   end).
Proof.
  unfold session_step; cbv zeta.
  rewrite Hcmd.
  destruct (prefix_app _ _ Hcmd) as [r Hr]; rewrite Hr.
  assert (Hlen := split_ws_length 3 (list_ascii_of_string (py_strip raw))).
  unfold py_split.
  destruct (split_ws 3 (list_ascii_of_string (py_strip raw)))
    as [|a [|b [|k [|v [|x more]]]]]; try reflexivity.
  simpl in Hlen; lia.
Qed.

(** ** Witnesses: each hypothesis above holds at a concrete input *)

Lemma reason_sample_reply_witness :
  (fun _ : string => Some reply_C1) "reply"%string = Some reply_C1 /\
  let '(ret, st') := reason (fun _ => Some reply_C1) stale_agent
                            (LlmContent (Some "reply"%string)) in
  dict_lookup (JStr "mood") (beliefs st') =
    Some (mkBelief (JStr "mood") (JStr "calm") (JFloat (PFin (6 # 10)))) /\
  map snd (intentions st') = [mkIntention (JStr "rest") (JObj []) JNull] /\
  ret = intentions st'.
Proof.
  split; [reflexivity|].
  apply (reason_sample_reply (fun _ => Some reply_C1) "reply"%string stale_agent).
  reflexivity.
Defined.

Lemma reason_unparseable_keeps_state_witness :
  ((exists e, LlmContent (Some "oops"%string) = LlmRaises e) \/
   (exists s, LlmContent (Some "oops"%string) = LlmContent (Some s) /\
              (fun _ : string => @None jvalue) s = None)) /\
  reason (fun _ => None) stale_agent (LlmContent (Some "oops"%string)) = ([], stale_agent).
Proof.
  assert (Hr : (exists e, LlmContent (Some "oops"%string) = LlmRaises e) \/
               (exists s, LlmContent (Some "oops"%string) = LlmContent (Some s) /\
                          (fun _ : string => @None jvalue) s = None))
    by (right; exists "oops"%string; split; reflexivity).
  split; [exact Hr|].
  exact (reason_unparseable_keeps_state (fun _ => None) stale_agent _ Hr).
Defined.

Lemma reason_failure_keeps_intentions_witness :
  reason_body (fun _ => None) (LlmContent (Some "oops"%string)) stale_agent
    = (Err JSONDecodeError, stale_agent) /\
  reason (fun _ => None) stale_agent (LlmContent (Some "oops"%string)) = ([], stale_agent) /\
  intentions stale_agent = intentions stale_agent /\ desires stale_agent = desires stale_agent.
Proof.
  split; [reflexivity|].
  apply (reason_failure_keeps_intentions (fun _ => None) stale_agent
           (LlmContent (Some "oops"%string)) JSONDecodeError stale_agent).
  reflexivity.
Defined.

Lemma reason_belief_updates_fail_fast_witness :
  let good := JObj [("key", JStr "mood"); ("value", JStr "calm")]%string in
  let badf := [("value", JStr "tired")]%string in
  let m := [("belief_updates", JArr [good; JObj badf; good])]%string in
  fst (update_beliefs_list (firstn 1 [good; JObj badf; good]) stale_agent) = Ok tt /\
  reason (fun _ => Some (JObj m)) stale_agent (LlmContent (Some "reply"%string)) =
    ([], snd (update_beliefs_list (firstn 1 [good; JObj badf; good]) stale_agent)) /\
  intentions (snd (update_beliefs_list (firstn 1 [good; JObj badf; good]) stale_agent))
    = intentions stale_agent.
Proof.
  intros good badf m.
  apply (reason_belief_updates_fail_fast (fun _ => Some (JObj m)) "reply"%string stale_agent
           m [good; JObj badf; good] 1 badf); try reflexivity.
  left; reflexivity.
Defined.

Lemma add_belief_one_per_key_witness :
  let calls := [("mood", JStr "calm", JFloat (PFin 1)); ("energy", JStr "high", JInt 1);
                ("mood", JStr "tired", JFloat (PFin (1 # 2)))]%string in
  dict_wf (beliefs stale_agent) = true /\
  let st' := snd (add_beliefs calls stale_agent) in
  fst (add_beliefs calls stale_agent) = Ok tt /\
  dict_wf (beliefs st') = true /\
  (forall k v c, In (k, v, c) calls -> key_count (JStr k) (beliefs st') = 1) /\
  (forall k v c, last_call k calls = Some (v, c) ->
     dict_lookup (JStr k) (beliefs st') = Some (mkBelief (JStr k) v c)).
Proof.
  intro calls; split; [reflexivity|].
  exact (add_belief_one_per_key calls stale_agent eq_refl).
Defined.

Lemma execute_once_then_empty_witness :
  intentions stale_agent = [(0, mkIntention (JStr "rest") (JObj []) JNull)] /\
  deadline (mkIntention (JStr "rest") (JObj []) JNull) = JNull /\
  let '(r1, st1) := execute_intentions (fun _ => EmptyString) (fun _ => None)
                      (execute_action (fun _ => EmptyString)) 1 stale_agent in
  r1 = Ok [("EXECUTED: " ++ EmptyString ++ " -> " ++ "Action '" ++ EmptyString
            ++ "' with params " ++ EmptyString ++ " completed")%string] /\
  intentions st1 = [] /\
  execute_intentions (fun _ => EmptyString) (fun _ => None)
    (execute_action (fun _ => EmptyString)) 1 st1 = (Ok [], st1).
Proof.
  split; [reflexivity|]; split; [reflexivity|].
  exact (execute_once_then_empty (fun _ => EmptyString) (fun _ => None) 1 stale_agent 0
           (mkIntention (JStr "rest") (JObj []) JNull) eq_refl eq_refl).
Defined.

Lemma execute_falsy_deadline_runs_witness :
  let ps := fun v : jvalue => match v with JStr s => s | _ => EmptyString end in
  let g := fun a p : jvalue =>
             ("Action '" ++ ps a ++ "' with params " ++ ps p ++ " completed")%string in
  let i := mkIntention (JStr "rest") (JObj []) (JFloat (PFin 0)) in
  let st := mkAgent [] [] [(0, mkIntention (JStr "call") (JObj []) (JInt 5)); (1, i)] 2 in
  (forall a p, execute_action ps a p = Ok (g a p)) /\
  nth_error (intentions st) 1 = Some (1, i) /\
  exists out,
    execute_intentions ps (fun _ => None) (execute_action ps) 2 st =
      (Ok out, set_intentions [] st) /\
    nth_error out 1 =
      Some ("EXECUTED: " ++ ps (action i) ++ " -> " ++ g (action i) (parameters i))%string.
Proof.
  intros ps g i st.
  assert (Hact : forall a p, execute_action ps a p = Ok (g a p)) by (intros; reflexivity).
  split; [exact Hact|]; split; [reflexivity|].
  apply (execute_falsy_deadline_runs ps (fun _ => None) (execute_action ps) g 2 st 1 1 i Hact).
  - reflexivity.
  - right; left; reflexivity.
Defined.

Lemma action_errors_propagate_witness :
  let ps := fun v : jvalue => match v with JStr s => s | _ => EmptyString end in
  let act := fun a _ : jvalue =>
               if py_eq a (JStr "fail") then Err (UserError "boom") else Ok "done"%string in
  let r := LlmRaises (ServiceError "quota") in
  let i1 := mkIntention (JStr "old") (JObj []) (JInt 1) in
  let i2 := mkIntention (JStr "call") (JObj []) JNull in
  let i3 := mkIntention (JStr "fail") (JObj []) (JInt 9) in
  let st := mkAgent [] [] [(0, i1); (1, i2); (2, i3)] 3 in
  intentions (snd (reason (fun _ => None) st r)) = [(0, i1); (1, i2)] ++ [(2, i3)] /\
  (forall n' i', In (n', i') [(0, i1); (1, i2)] ->
     deadline_expired (fun _ => None) 2 (deadline i') = true \/
     exists out, act (action i') (parameters i') = Ok out) /\
  deadline_expired (fun _ => None) 2 (deadline i3) = false /\
  fst (cycle (fun _ => None) ps (fun _ => None) act 2 r st) = Err (UserError "boom").
Proof.
  intros ps act r i1 i2 i3 st.
  assert (Hpre : forall n' i', In (n', i') [(0, i1); (1, i2)] ->
            deadline_expired (fun _ => None) 2 (deadline i') = true \/
            exists out, act (action i') (parameters i') = Ok out).
  { intros n' i' Hin; destruct Hin as [H | [H | []]]; injection H as _ <-;
      [left; reflexivity | right; eexists; reflexivity]. }
  split; [reflexivity|]; split; [exact Hpre|]; split; [reflexivity|].
  apply (action_errors_propagate (fun _ => None) ps (fun _ => None) 2 act (UserError "boom")
           st r [(0, i1); (1, i2)] 2 i3 [] eq_refl Hpre eq_refl eq_refl).
Defined.

Lemma cycle_reports_zero_formed_witness :
  let jl := fun _ : string => Some reply_C1 in
  let ps := fun _ : jvalue => EmptyString in
  let pf := fun _ : string => @None pyfloat in
  let r := LlmContent (Some "reply"%string) in
  let res := mkCycleResult 0 ["EXECUTED:  -> Action '' with params  completed"%string]
                           [JStr "mood"] 0 in
  let st' := mkAgent [(JStr "mood", mkBelief (JStr "mood") (JStr "calm")
                                          (JFloat (PFin (6 # 10))))] [] [] 2 in
  cycle jl ps pf (execute_action ps) 1 r stale_agent = (Ok res, st') /\
  st' = set_intentions [] (snd (reason jl stale_agent r)) /\
  intentions_formed res = 0 /\
  current_beliefs res = map fst (beliefs (snd (reason jl stale_agent r))) /\
  active_desires res = length (desires stale_agent).
Proof.
  intros jl ps pf r res st'.
  split; [reflexivity|].
  apply (cycle_reports_zero_formed jl ps pf (execute_action ps) 1 r stale_agent res st').
  reflexivity.
Defined.

Lemma execute_reports_all_witness :
  let ps := fun v : jvalue => match v with JStr s => s | _ => EmptyString end in
  let pf := fun _ : string => @None pyfloat in
  let g := fun a p : jvalue =>
             ("Action '" ++ ps a ++ "' with params " ++ ps p ++ " completed")%string in
  let st := mkAgent [] [] [(0, mkIntention (JStr "call") (JObj []) (JInt 1));
                           (1, mkIntention (JStr "rest") (JObj []) (JInt 5))] 2 in
  (forall a p, execute_action ps a p = Ok (g a p)) /\
  execute_intentions ps pf (execute_action ps) 2 st =
  (Ok (map (exec_report ps pf g 2) (map snd (intentions st))), set_intentions [] st).
Proof.
  intros ps pf g st.
  assert (Hact : forall a p, execute_action ps a p = Ok (g a p)) by (intros; reflexivity).
  split; [exact Hact|].
  exact (execute_reports_all ps pf (execute_action ps) g 2 st Hact).
Defined.

Lemma execute_expired_head_skips_action_witness :
  let ps := fun v : jvalue => match v with JStr s => s | _ => EmptyString end in
  let pf := fun _ : string => Some (PFin 1) in
  let act := fun _ _ : jvalue => @Err string (UserError "boom") in
  let i := mkIntention (JStr "call") (JObj []) (JStr "1.0") in
  let st := mkAgent [] [] [(0, i)] 1 in
  intentions st = [(0, i)] /\
  deadline_expired pf 2 (deadline i) = true /\
  execute_intentions ps pf act 2 st =
  let '(r, st') := execute_intentions ps pf act 2 (set_intentions [] st) in
  (match r with
   | Ok out => Ok (("EXPIRED: " ++ ps (action i))%string :: out)
   | Err e => Err e
   end, st').
Proof.
  intros ps pf act i st.
  split; [reflexivity|]; split; [reflexivity|].
  apply (execute_expired_head_skips_action ps pf act 2 st 0 i []); reflexivity.
Defined.

Lemma execute_error_origin_witness :
  let ps := fun v : jvalue => match v with JStr s => s | _ => EmptyString end in
  let pf := fun _ : string => @None pyfloat in
  let act := fun a _ : jvalue =>
               if py_eq a (JStr "fail") then Err (UserError "boom") else Ok "done"%string in
  let i1 := mkIntention (JStr "call") (JObj []) JNull in
  let i2 := mkIntention (JStr "fail") (JObj []) JNull in
  let st := mkAgent [] [] [(0, i1); (1, i2)] 2 in
  execute_intentions ps pf act 1 st = (Err (UserError "boom"), mkAgent [] [] [(1, i2)] 2) /\
  exists pre n i post,
    intentions st = pre ++ (n, i) :: post /\
    deadline_expired pf 1 (deadline i) = false /\
    act (action i) (parameters i) = Err (UserError "boom") /\
    mkAgent [] [] [(1, i2)] 2 = set_intentions ((n, i) :: post) st.
Proof.
  intros ps pf act i1 i2 st.
  split; [reflexivity|].
  apply (execute_error_origin ps pf act 1 st (UserError "boom") (mkAgent [] [] [(1, i2)] 2)).
  reflexivity.
Defined.

Lemma reason_success_shape_witness :
  let jl := fun _ : string => Some reply_C1 in
  let m := [("belief_updates", JArr [JObj [("key", JStr "mood"); ("value", JStr "calm");
                                          ("confidence", JFloat (PFin (6 # 10)))]]);
            ("new_intentions", JArr [JObj [("action", JStr "rest")]]);
            ("reasoning", JStr "ok")]%string in
  let bl := [JObj [("key", JStr "mood"); ("value", JStr "calm");
                   ("confidence", JFloat (PFin (6 # 10)))]]%string in
  let nl := [JObj [("action", JStr "rest")]]%string in
  jl "reply"%string = Some (JObj m) /\
  forallb belief_entry_ok bl = true /\ forallb intention_entry_ok nl = true /\
  let '(ret, st') := reason jl stale_agent (LlmContent (Some "reply"%string)) in
  ret = intentions st' /\
  map snd ret = map entry_intention nl /\
  beliefs st' = apply_entries (beliefs stale_agent) bl /\
  desires st' = desires stale_agent.
Proof.
  intros jl m bl nl.
  split; [reflexivity|]; split; [reflexivity|]; split; [reflexivity|].
  apply (reason_success_shape jl "reply"%string stale_agent m bl nl);
    try (left; reflexivity); reflexivity.
Defined.

Lemma reason_bad_intention_keeps_beliefs_witness :
  let good := JObj [("key", JStr "mood"); ("value", JStr "calm")]%string in
  let nl := [JObj [("action", JStr "rest")]; JStr "oops"]%string in
  let m := [("belief_updates", JArr [good]); ("new_intentions", JArr nl)]%string in
  let jl := fun _ : string => Some (JObj m) in
  nth_error nl 1 = Some (JStr "oops") /\
  intention_entry_ok (JStr "oops") = false /\
  let '(ret, st') := reason jl stale_agent (LlmContent (Some "reply"%string)) in
  ret = [] /\
  intentions st' = intentions stale_agent /\
  beliefs st' = apply_entries (beliefs stale_agent) [good] /\
  desires st' = desires stale_agent.
Proof.
  intros good nl m jl.
  split; [reflexivity|]; split; [reflexivity|].
  apply (reason_bad_intention_keeps_beliefs jl "reply"%string stale_agent m [good] nl 1
           (JStr "oops")); try (left; reflexivity); reflexivity.
Defined.

Lemma reason_non_object_reply_witness :
  let jl := fun _ : string => Some (JArr []) in
  jl "[]"%string = Some (JArr []) /\
  reason jl stale_agent (LlmContent None) = ([], stale_agent) /\
  reason jl stale_agent (LlmContent (Some "[]"%string)) = ([], stale_agent).
Proof.
  intro jl; split; [reflexivity|].
  apply (reason_non_object_reply jl stale_agent "[]"%string (JArr [])); [reflexivity|].
  intros m H; discriminate H.
Defined.

Lemma reason_empty_new_intentions_clears_witness :
  let m := [("new_intentions", JStr EmptyString)]%string in
  let jl := fun _ : string => Some (JObj m) in
  jl "reply"%string = Some (JObj m) /\
  let '(ret, st') := reason jl stale_agent (LlmContent (Some "reply"%string)) in
  ret = [] /\ intentions st' = [] /\ beliefs st' = beliefs stale_agent /\
  desires st' = desires stale_agent.
Proof.
  intros m jl; split; [reflexivity|].
  apply (reason_empty_new_intentions_clears jl "reply"%string stale_agent m); [reflexivity..|].
  right; right; reflexivity.
Defined.

Lemma session_add_belief_confidence_one_witness :
  let ps := fun _ : jvalue => EmptyString in
  let pf := fun _ : string => Some (PFin (1 # 2)) in
  let raw := "  Add Belief mood happy 0.5 "%string in
  py_startswith (py_lower (py_strip raw)) "add belief" = true /\
  session_step (fun _ => None) ps pf (fun _ => None) (execute_action ps) 1
    (LlmRaises KeyError) raw stale_agent =
  (SessionContinue,
   match py_split (py_strip raw) 3 with
   | _ :: _ :: k :: v :: _ => snd (add_belief (JStr k) (JStr v) (JFloat (PFin 1)) stale_agent)
   | _ => stale_agent
   end).
Proof.
  intros ps pf raw.
  split; [vm_compute; reflexivity|].
  apply (session_add_belief_confidence_one (fun _ => None) ps pf (fun _ => None)
           (execute_action ps) 1 (LlmRaises KeyError) raw stale_agent).
  vm_compute; reflexivity.
Defined.
